(** * social-uni backend: user directory, relationships and profile updates

    A shallow embedding of the TypeScript sources
    - [src/core/controller/userController.ts] (the guarded controller with its
      private [UserService] and [CloudinaryService]),
    - [src/modules/user/services/user.service.ts] and
      [src/modules/user/controller/user.controller.ts] (the route-mounted
      directory module),
    - [src/modules/auth/controller/auth.controller.ts],
    - [core/services/cloudinary.service.ts],
    followed by the properties of the specification that concern them.

    The MongoDB collection is a finite map from [_id] to user documents, the
    image host is a log of the calls made to it, and every [async] function is
    a computation in a state-and-exception monad over that world. *)

From Stdlib Require Import String Ascii.
From stdpp Require Import gmap strings list fin_maps.

Local Open Scope string_scope.

(** ** JavaScript values and string primitives *)

Module Js.

(** The white space that [String.prototype.trim] removes, for the
    one-byte characters of [string]. *)
Definition is_white_space (c : ascii) : bool :=
  let n := nat_of_ascii c in
  (Nat.eqb n 9 || Nat.eqb n 10 || Nat.eqb n 11 || Nat.eqb n 12
   || Nat.eqb n 13 || Nat.eqb n 32)%bool.

Fixpoint trimStart (s : string) : string :=
  match s with
  | String c s' => if is_white_space c then trimStart s' else s
  | EmptyString => EmptyString
  end.

(** [trimEnd] keeps a character when it is not white space or when
    something survives to its right. *)
Fixpoint trimEnd (s : string) : string :=
  match s with
  | String c s' =>
      match trimEnd s' with
      | EmptyString => if is_white_space c then EmptyString else String c EmptyString
      | t => String c t
      end
  | EmptyString => EmptyString
  end.

Definition trim (s : string) : string := trimEnd (trimStart s).

(** Truthiness of a string: only the empty string is falsy. *)
Definition truthy (s : string) : bool :=
  match s with EmptyString => false | _ => true end.

(** [!x] for an optional string ([undefined] or a string). *)
Definition falsy_opt (x : option string) : bool :=
  match x with Some s => negb (truthy s) | None => true end.

(** [Array.prototype.includes] on an array of strings. *)
Definition includes (x : string) (l : list string) : bool :=
  existsb (String.eqb x) l.

Definition toLowerCase_char (c : ascii) : ascii :=
  let n := nat_of_ascii c in
  if (Nat.leb 65 n && Nat.leb n 90)%bool then ascii_of_nat (n + 32) else c.

Fixpoint toLowerCase (s : string) : string :=
  match s with
  | String c s' => String (toLowerCase_char c) (toLowerCase s')
  | EmptyString => EmptyString
  end.

Fixpoint startsWith (p s : string) : bool :=
  match p, s with
  | EmptyString, _ => true
  | String a p', String b s' => (Ascii.eqb a b && startsWith p' s')%bool
  | String _ _, EmptyString => false
  end.

(** [String.prototype.includes]: [p] occurs somewhere in [s]. *)
Fixpoint str_includes (p s : string) : bool :=
  (startsWith p s ||
   match s with
   | String _ s' => str_includes p s'
   | EmptyString => false
   end)%bool.

(** Case-insensitive containment, over the ASCII letters. *)
Definition includes_ci (p s : string) : bool :=
  str_includes (toLowerCase p) (toLowerCase s).

(** [String.prototype.split] on a one-character separator. *)
Fixpoint split (sep : ascii) (s : string) : list string :=
  match s with
  | EmptyString => [EmptyString]
  | String c s' =>
      if Ascii.eqb c sep then EmptyString :: split sep s'
      else match split sep s' with
           | h :: t => String c h :: t
           | [] => [String c EmptyString]
           end
  end.

(** [Array.prototype.join]. *)
Fixpoint join (sep : string) (l : list string) : string :=
  match l with
  | [] => EmptyString
  | [x] => x
  | x :: l' => x ++ sep ++ join sep l'
  end.

(** [Array.prototype.findIndex] with an equality test; [None] is -1. *)
Fixpoint findIndex (x : string) (l : list string) : option nat :=
  match l with
  | [] => None
  | y :: l' => if String.eqb y x then Some 0 else S <$> findIndex x l'
  end.

(** A value read from a JSON request body at a key whose type the
    handler does not know: absent keys are [None] at the use site. *)
Inductive Value :=
| JNull
| JString (s : string)
| JStrings (l : list string)
| JOther.

(** A plain object, as [toObject()] and JSON bodies give it. *)
Abbreviation Obj := (gmap string Value).

(** [a ?? b] on possibly absent body keys. *)
Definition nullish_coalesce (a b : option Value) : option Value :=
  match a with
  | None | Some JNull => b
  | Some _ => a
  end.

End Js.

(** ** Exceptions and the world *)

(** What a [throw] carries: an [Error] object with its message, a bare
    string (the directory module throws string literals), or the ODM's
    cast error for an identifier that is no ObjectId. *)
Inductive Exn :=
| ErrorObj (message : string)
| ThrownString (s : string)
| CastError (value : string)
| SyntaxError (pattern : string).

Inductive Outcome (A : Type) :=
| Return (a : A)
| Throw (e : Exn).
Arguments Return {A} a.
Arguments Throw {A} e.

(** *** The user collection ([user.model.ts])

    The fields of the schema.  The time stamps and the version key that
    the ODM maintains on its own are not part of the record. *)

Record User := mkUser {
  email : string;
  password : string;
  full_name : string;
  username : option string;
  bio : string;
  profile_image : string;
  cover_image : string;
  location : string;
  followers : list string;
  following : list string;
  connections : list string
}.

(** *** The image host *)

Inductive Folder := profiles | covers.

Inductive Buffer := Buffer_from_base64 (data : string).

(** The part of [Express.Multer.File] the services read. *)
Record File := mkFile {
  buffer : option Buffer;
  path : option string;
  mimetype : string;
  size : option N
}.

(** Calls that reach the image host, in the order they are made. *)
Inductive CloudCall :=
| Destroy (publicId : string)
| UploadStream (folder : Folder) (file : File)
| Upload (folder : Folder) (filePath : string).

(** What [upload_stream] hands to its callback: an error, or a result
    whose [secure_url] may be missing. *)
Inductive UploadResult :=
| UploadError (message : string)
| UploadDone (secure_url : option string).

Record World := mkWorld {
  users : gmap string User;
  cloud : list CloudCall
}.

(** *** Libraries the sources call but do not define *)

Record Runtime := mkRuntime {
  (** [mongoose.Types.ObjectId.isValid] *)
  ObjectId_isValid : string -> bool;
  (** [new RegExp(p, 'i')]: [None] when the pattern does not compile,
      else the test the expression performs on a field. *)
  RegExp_i : string -> option (string -> bool);
  (** [cloudinary.uploader.destroy]: [true] when the promise resolves;
      the argument list is the calls made so far. *)
  uploader_destroy : list CloudCall -> string -> bool;
  (** [cloudinary.uploader.upload_stream] *)
  uploader_upload_stream : list CloudCall -> Folder -> File -> UploadResult;
  (** [cloudinary.uploader.upload] from a path on disk *)
  uploader_upload : list CloudCall -> Folder -> string -> UploadResult;
  (** [parseInt(process.env.MAX_FILE_SIZE || '10485760')] *)
  env_MAX_FILE_SIZE : N;
  (** [bcrypt.compare] *)
  bcrypt_compare : string -> string -> bool;
  (** [jwt.sign] on the identifier and the email *)
  jwt_sign : string -> string -> string
}.

(** ** Promises as a state-and-exception monad *)

Definition Async (A : Type) : Type := World -> Outcome A * World.

Definition ret {A} (a : A) : Async A := fun w => (Return a, w).

Definition throw {A} (e : Exn) : Async A := fun w => (Throw e, w).

Definition bind {A B} (m : Async A) (k : A -> Async B) : Async B :=
  fun w =>
    match m w with
    | (Return a, w') => k a w'
    | (Throw e, w') => (Throw e, w')
    end.

(** [try { m } catch (e) { h e }] *)
Definition try_catch {A} (m : Async A) (h : Exn -> Async A) : Async A :=
  fun w =>
    match m w with
    | (Return a, w') => (Return a, w')
    | (Throw e, w') => h e w'
    end.

(** The binds below are written with stdpp's monad notation
    [x ← m; k] and [m ;; k]. *)
#[global] Instance Async_ret : MRet Async := @ret.
#[global] Instance Async_bind : MBind Async := fun A B k m => bind m k.

(** *** Documents *)

(** A hydrated document: the [_id] it was loaded under and the snapshot
    of its fields. *)
Record Document := mkDocument {
  _id : string;
  fields : User
}.

Definition set_following (l : list string) (u : User) : User :=
  mkUser (email u) (password u) (full_name u) (username u) (bio u)
         (profile_image u) (cover_image u) (location u)
         (followers u) l (connections u).

Definition set_followers (l : list string) (u : User) : User :=
  mkUser (email u) (password u) (full_name u) (username u) (bio u)
         (profile_image u) (cover_image u) (location u)
         l (following u) (connections u).

Definition set_connections (l : list string) (u : User) : User :=
  mkUser (email u) (password u) (full_name u) (username u) (bio u)
         (profile_image u) (cover_image u) (location u)
         (followers u) (following u) l.

(** [doc.save()] after the array at one path was changed in memory: the
    ODM writes the modified path of the stored document and nothing
    else. *)
Definition save_path (setter : list string -> User -> User)
    (d : Document) (l : list string) : Async unit :=
  fun w => (Return tt, mkWorld (alter (setter l) (_id d) (users w)) (cloud w)).

(** [doc.toObject()], which is also what the document serialises to:
    every path of the schema that holds a value. *)
Definition toObject (d : Document) : Js.Obj :=
  let u := fields d in
  let o : Js.Obj :=
    list_to_map
      [("_id", Js.JString (_id d));
       ("email", Js.JString (email u));
       ("password", Js.JString (password u));
       ("full_name", Js.JString (full_name u));
       ("bio", Js.JString (bio u));
       ("profile_image", Js.JString (profile_image u));
       ("cover_image", Js.JString (cover_image u));
       ("location", Js.JString (location u));
       ("followers", Js.JStrings (followers u));
       ("following", Js.JStrings (following u));
       ("connections", Js.JStrings (connections u))] in
  match username u with
  | Some n => <["username" := Js.JString n]> o
  | None => o
  end.

(** [const { password, ...safeUser } = o], and the projection
    [.select('-password')] of a query. *)
Definition without_password (o : Js.Obj) : Js.Obj := delete "password" o.

(** ** The ODM's model functions on the user collection *)

Module Model.

(** The paths of the schema an update can name. *)
Inductive Path :=
| path_email | path_password | path_full_name | path_username | path_bio
| path_profile_image | path_cover_image | path_location
| path_followers | path_following | path_connections.

(** An update object restricted to the paths of the schema: a key is
    [Some] when the object has it with a defined value. *)
Record Update := mkUpdate {
  set_email : option string;
  set_password : option string;
  set_full_name : option string;
  set_username : option string;
  set_bio : option string;
  set_profile_image : option string;
  set_cover_image : option string;
  set_location : option string;
  set_followers_to : option (list string);
  set_following_to : option (list string);
  set_connections_to : option (list string)
}.

Definition apply_update (d : Update) (u : User) : User :=
  mkUser (default (email u) (set_email d))
         (default (password u) (set_password d))
         (default (full_name u) (set_full_name d))
         (match set_username d with Some n => Some n | None => username u end)
         (default (bio u) (set_bio d))
         (default (profile_image u) (set_profile_image d))
         (default (cover_image u) (set_cover_image d))
         (default (location u) (set_location d))
         (default (followers u) (set_followers_to d))
         (default (following u) (set_following_to d))
         (default (connections u) (set_connections_to d)).

(** [updates.profile_image = url] and [updates.cover_image = url] *)
Definition with_profile_image (url : string) (d : Update) : Update :=
  mkUpdate (set_email d) (set_password d) (set_full_name d) (set_username d)
           (set_bio d) (Some url) (set_cover_image d) (set_location d)
           (set_followers_to d) (set_following_to d) (set_connections_to d).

Definition with_cover_image (url : string) (d : Update) : Update :=
  mkUpdate (set_email d) (set_password d) (set_full_name d) (set_username d)
           (set_bio d) (set_profile_image d) (Some url) (set_location d)
           (set_followers_to d) (set_following_to d) (set_connections_to d).

(** The value a document holds at a path. *)
Definition get (p : Path) (u : User) : option Js.Value :=
  match p with
  | path_email => Some (Js.JString (email u))
  | path_password => Some (Js.JString (password u))
  | path_full_name => Some (Js.JString (full_name u))
  | path_username => Js.JString <$> username u
  | path_bio => Some (Js.JString (bio u))
  | path_profile_image => Some (Js.JString (profile_image u))
  | path_cover_image => Some (Js.JString (cover_image u))
  | path_location => Some (Js.JString (location u))
  | path_followers => Some (Js.JStrings (followers u))
  | path_following => Some (Js.JStrings (following u))
  | path_connections => Some (Js.JStrings (connections u))
  end.

(** Whether an update names a path. *)
Definition names (d : Update) (p : Path) : bool :=
  match p with
  | path_email => bool_decide (is_Some (set_email d))
  | path_password => bool_decide (is_Some (set_password d))
  | path_full_name => bool_decide (is_Some (set_full_name d))
  | path_username => bool_decide (is_Some (set_username d))
  | path_bio => bool_decide (is_Some (set_bio d))
  | path_profile_image => bool_decide (is_Some (set_profile_image d))
  | path_cover_image => bool_decide (is_Some (set_cover_image d))
  | path_location => bool_decide (is_Some (set_location d))
  | path_followers => bool_decide (is_Some (set_followers_to d))
  | path_following => bool_decide (is_Some (set_following_to d))
  | path_connections => bool_decide (is_Some (set_connections_to d))
  end.

(** [$addToSet] and [$pull] on an array of identifiers. *)
Definition addToSet (x : string) (l : list string) : list string :=
  if Js.includes x l then l else l ++ [x].

Definition pull (x : string) (l : list string) : list string :=
  filter (fun y => y ≠ x) l.

(** The documents of the collection, as [User.find()] lists them. *)
Definition find_all (w : World) : list Document :=
  (fun p => mkDocument p.1 p.2) <$> map_to_list (users w).

(** [User.find(query)] *)
Definition find (query : User -> bool) : Async (list Document) :=
  fun w => (Return (filter (fun d => query (fields d) = true) (find_all w)), w).

(** [User.findOne(query)] *)
Definition findOne (query : User -> bool) : Async (option Document) :=
  docs ← find query; mret (head docs).

Section Model.
Variable rt : Runtime.

(** Every query by [_id] first casts the identifier. *)
Definition cast_id {A} (id : string) (k : Async A) : Async A :=
  if ObjectId_isValid rt id then k else throw (CastError id).

(** [User.findById(id)] *)
Definition findById (id : string) : Async (option Document) :=
  cast_id id (fun w => (Return (mkDocument id <$> users w !! id), w)).

(** [User.findByIdAndUpdate(id, ops)] where [ops] changes the stored
    document by [f].  With [{ new: true }] the caller reads the updated
    document, which is what is returned here; the callers that do not
    pass the option ignore the result. *)
Definition findByIdAndModify (id : string) (f : User -> User)
    : Async (option Document) :=
  cast_id id (fun w =>
    match users w !! id with
    | Some u =>
        (Return (Some (mkDocument id (f u))),
         mkWorld (<[id := f u]> (users w)) (cloud w))
    | None => (Return None, w)
    end).

(** [User.findByIdAndUpdate(id, data, { new: true })] *)
Definition findByIdAndUpdate (id : string) (data : Update)
    : Async (option Document) :=
  findByIdAndModify id (apply_update data).

(** [User.findByIdAndDelete(id)] *)
Definition findByIdAndDelete (id : string) : Async (option Document) :=
  cast_id id (fun w =>
    match users w !! id with
    | Some u =>
        (Return (Some (mkDocument id u)),
         mkWorld (delete id (users w)) (cloud w))
    | None => (Return None, w)
    end).

End Model.

End Model.

(** [error.message || error], the text a handler reports for a caught
    exception (the engine's wording for its own errors is abridged). *)
Definition exn_message (e : Exn) : string :=
  match e with
  | ErrorObj m => m
  | ThrownString t => t
  | CastError v => "Cast to ObjectId failed for value " ++ v
  | SyntaxError p => "Invalid regular expression: " ++ p
  end.

(** [error instanceof Error] *)
Definition instanceof_Error (e : Exn) : bool :=
  match e with ThrownString _ => false | _ => true end.

(** ** The image service, shared by both of its copies
    ([deleteImage] and [extractPublicId] are the same text in
    [core/services/cloudinary.service.ts] and in [userController.ts]) *)

Module Cloudinary.

Definition allowedTypes : list string :=
  ["image/jpeg"; "image/jpg"; "image/png"; "image/webp"].

(** [s.replace(/\.[^/.]+$/, '')] when the expression matches: a dot
    followed, up to the end, by one or more characters that are neither
    a slash nor a dot. *)
Fixpoint match_extension (s : string) : option string :=
  match s with
  | EmptyString => None
  | String c s' =>
      match match_extension s' with
      | Some t => Some (String c t)
      | None =>
          if (Ascii.eqb c "." && Js.truthy s'
              && negb (Js.str_includes "/" s')
              && negb (Js.str_includes "." s'))%bool
          then Some EmptyString else None
      end
  end.

Definition remove_extension (s : string) : string :=
  default s (match_extension s).

Definition extractPublicId (imageUrl : string) : option string :=
  let urlParts := Js.split "/" imageUrl in
  match Js.findIndex "upload" urlParts with
  | None => None
  | Some uploadIndex =>
      let publicIdWithExtension := Js.join "/" (drop (uploadIndex + 2) urlParts) in
      Some (remove_extension publicIdWithExtension)
  end.

Section Cloudinary.
Variable rt : Runtime.

(** [await cloudinary.uploader.destroy(publicId)] *)
Definition destroy (publicId : string) : Async unit :=
  fun w =>
    let w' := mkWorld (users w) (cloud w ++ [Destroy publicId]) in
    if uploader_destroy rt (cloud w) publicId then (Return tt, w')
    else (Throw (ErrorObj "destroy failed"), w').

Definition deleteImage (imageUrl : string) : Async unit :=
  try_catch
    (match extractPublicId imageUrl with
     | Some publicId => if Js.truthy publicId then destroy publicId else mret tt
     | None => mret tt
     end)
    (fun _ => mret tt).

(** The promise around [upload_stream(...).end(file.buffer)]; [wrap]
    is what the callback does with the host's error message before
    rejecting. *)
Definition upload_stream (wrap : string -> Exn) (folder : Folder) (file : File)
    : Async (option string) :=
  fun w =>
    let w' := mkWorld (users w) (cloud w ++ [UploadStream folder file]) in
    match uploader_upload_stream rt (cloud w) folder file with
    | UploadError m => (Throw (wrap m), w')
    | UploadDone url => (Return url, w')
    end.

(** [await cloudinary.uploader.upload(file.path, uploadOptions)] *)
Definition upload (folder : Folder) (filePath : string) : Async (option string) :=
  fun w =>
    let w' := mkWorld (users w) (cloud w ++ [Upload folder filePath]) in
    match uploader_upload rt (cloud w) folder filePath with
    | UploadError m => (Throw (ErrorObj m), w')
    | UploadDone url => (Return url, w')
    end.

End Cloudinary.

End Cloudinary.

(** *** [core/services/cloudinary.service.ts] *)

Module CloudinaryService.
Section CloudinaryService.
Variable rt : Runtime.

Definition maxSize : N := (10 * 1024 * 1024)%N.

Definition deleteImage := Cloudinary.deleteImage rt.

Definition validateFile (file : File) : Async unit :=
  if negb (Js.includes (mimetype file) Cloudinary.allowedTypes) then
    throw (ErrorObj "Invalid file type. Allowed: image/jpeg, image/jpg, image/png, image/webp")
  else if match size file with Some n => N.ltb maxSize n | None => false end then
    throw (ErrorObj "File too large. Max allowed size is 10 MB")
  else mret tt.

Definition uploadImage (file : File) (folder : Folder) : Async string :=
  validateFile file;;
  uploadResult ← Cloudinary.upload_stream rt ErrorObj folder file;
  match uploadResult with
  | Some secure_url =>
      if Js.truthy secure_url then mret secure_url
      else throw (ErrorObj "Upload succeeded but no secure URL returned.")
  | None => throw (ErrorObj "Upload succeeded but no secure URL returned.")
  end.

End CloudinaryService.
End CloudinaryService.

(** ** HTTP responses of the guarded controller *)

Inductive Payload :=
| Message (message : string)
| ServerError (message error : string)
| UserObject (safeUser : Js.Obj)
| UserEnvelope (success : bool) (user : Js.Obj)
| UsersEnvelope (found : list Js.Obj).

Record Response := mkResponse {
  statusCode : nat;
  json : Payload
}.

(** ** The guarded controller ([core/controller/userController.ts]) *)

Module Core.

(** The optional keys of [interface UpdateUserData]. *)
Record UpdateUserData := mkUpdateUserData {
  upd_username : option string;
  upd_bio : option string;
  upd_location : option string;
  upd_full_name : option string;
  upd_profile : option string;
  upd_cover : option string
}.

(** What [findByIdAndUpdate] keeps of an [UpdateUserData]: keys holding
    [undefined] are not sent, and [profile] and [cover], which are no
    paths of the schema, are dropped by the ODM's strict mode. *)
Definition schema_update (d : UpdateUserData) : Model.Update :=
  Model.mkUpdate None None (upd_full_name d) (upd_username d) (upd_bio d)
                 None None (upd_location d) None None None.

Record AuthenticatedRequest := mkRequest {
  user_id : option string;
  body_username : option string;
  body_bio : option string;
  body_location : option string;
  body_full_name : option string;
  body_input : option string;
  body_followId : string;
  body_unfollowId : string;
  files_profile : option File;
  files_cover : option File
}.

Module BaseController.

Definition handleError (error : Exn) (message : string) : Async Response :=
  mret (mkResponse 500 (ServerError message (exn_message error))).

Definition sendResponse (data : Payload) (code : nat) : Async Response :=
  mret (mkResponse code data).

Definition validateAuthentication (req : AuthenticatedRequest) : option string :=
  match user_id req with
  | Some userId => if Js.truthy userId then Some userId else None
  | None => None
  end.

End BaseController.

Module CloudinaryService.
Section CloudinaryService.
Variable rt : Runtime.

Definition deleteImage := Cloudinary.deleteImage rt.

(** The removal of a temporary file on disk around the upload leaves
    no trace in the world and is not shown. *)
Definition uploadImage (file : File) (folder : Folder) : Async string :=
  try_catch
    (if negb (Js.includes (mimetype file) Cloudinary.allowedTypes) then
       throw (ErrorObj "Invalid file type. Only JPEG, JPG, PNG, and WebP are allowed.")
     else if match size file with
             | Some n => N.ltb (env_MAX_FILE_SIZE rt) n
             | None => false
             end then
       throw (ErrorObj "File size too large.")
     else
       uploadResult ←
         match buffer file, path file with
         | Some _, _ =>
             Cloudinary.upload_stream rt
               (fun m => ErrorObj ("Upload failed: " ++ m)) folder file
         | None, Some filePath =>
             if Js.truthy filePath then Cloudinary.upload rt folder filePath
             else throw (ErrorObj "Invalid file data: neither buffer nor path available")
         | None, None =>
             throw (ErrorObj "Invalid file data: neither buffer nor path available")
         end;
       match uploadResult with
       | Some secure_url =>
           if Js.truthy secure_url then mret secure_url
           else throw (ErrorObj "Upload successful but no URL returned")
       | None => throw (ErrorObj "Upload successful but no URL returned")
       end)
    (fun error =>
       throw (ErrorObj ("Cloudinary upload failed: " ++ exn_message error))).

End CloudinaryService.
End CloudinaryService.

Module UserService.
Section UserService.
Variable rt : Runtime.

Definition findUserById (userId : string) : Async (option Document) :=
  if negb (ObjectId_isValid rt userId) then
    throw (ErrorObj "Invalid user ID format")
  else Model.findById rt userId.

Definition findUserByUsername (name : string) : Async (option Document) :=
  Model.findOne (fun u => bool_decide (username u = Some name)).

Definition updateUser (userId : string) (updateData : UpdateUserData)
    : Async (option Document) :=
  if negb (ObjectId_isValid rt userId) then
    throw (ErrorObj "Invalid user ID format")
  else Model.findByIdAndUpdate rt userId (schema_update updateData).

(** The [$or] of the four regular-expression conditions; a document
    without [username] cannot match on it. *)
Definition query (re : string -> bool) (u : User) : bool :=
  (match username u with Some n => re n | None => false end
   || re (email u) || re (full_name u) || re (location u))%bool.

Definition searchUsers (searchInput excludeUserId : string)
    : Async (list Js.Obj) :=
  match RegExp_i rt searchInput with
  | None => throw (SyntaxError searchInput)
  | Some re =>
      allUsers ← Model.find (query re);
      mret (without_password ∘ toObject <$>
              filter (fun user => _id user ≠ excludeUserId) allUsers)
  end.

Definition addFollowing (userId followId : string) : Async unit :=
  user ← findUserById userId;
  match user with
  | None => throw (ErrorObj "User not found")
  | Some user =>
      userToFollow ← findUserById followId;
      match userToFollow with
      | None => throw (ErrorObj "User to follow not found")
      | Some userToFollow =>
          if Js.includes followId (following (fields user)) then
            throw (ErrorObj "Already following this user")
          else
            save_path set_following user
                      (following (fields user) ++ [followId]);;
            if negb (Js.includes userId (followers (fields userToFollow)))
            then save_path set_followers userToFollow
                           (followers (fields userToFollow) ++ [userId])
            else mret tt
      end
  end.

Definition removeFollowing (userId unfollowId : string) : Async unit :=
  user ← findUserById userId;
  match user with
  | None => throw (ErrorObj "User not found")
  | Some user =>
      if negb (Js.includes unfollowId (following (fields user))) then
        throw (ErrorObj "You are not following this user")
      else
        save_path set_following user
                  (filter (fun id => id ≠ unfollowId) (following (fields user)));;
        userToUnfollow ← findUserById unfollowId;
        match userToUnfollow with
        | Some userToUnfollow =>
            if Js.includes userId (followers (fields userToUnfollow)) then
              save_path set_followers userToUnfollow
                        (filter (fun id => id ≠ userId)
                                (followers (fields userToUnfollow)))
            else mret tt
        | None => mret tt
        end
  end.

End UserService.
End UserService.

Module UserController.
Import BaseController.
Section UserController.
Variable rt : Runtime.

Definition getUserId (req : AuthenticatedRequest) : Async Response :=
  try_catch
    (match validateAuthentication req with
     | None => sendResponse (Message "Unauthorized") 401
     | Some userId =>
         user ← UserService.findUserById rt userId;
         match user with
         | None => sendResponse (Message "User not found") 404
         | Some user =>
             sendResponse (UserObject (without_password (toObject user))) 200
         end
     end)
    (fun error => handleError error "Error in getUserId").

(** [currentUser.profile] and [currentUser.cover] read properties
    that the schema does not define, so both tests see [undefined]
    and the branch deleting an old image is never entered. *)
Definition handleImageUploads (req : AuthenticatedRequest)
    (updatedData : UpdateUserData) (currentUser : Document)
    : Async UpdateUserData :=
  let currentUser_profile : option string := None in
  let currentUser_cover : option string := None in
  updatedData ←
    match files_profile req with
    | Some profile =>
        (if negb (Js.falsy_opt currentUser_profile)
         then CloudinaryService.deleteImage rt (default "" currentUser_profile)
         else mret tt);;
        url ← CloudinaryService.uploadImage rt profile profiles;
        mret (mkUpdateUserData (upd_username updatedData) (upd_bio updatedData)
                (upd_location updatedData) (upd_full_name updatedData)
                (Some url) (upd_cover updatedData))
    | None => mret updatedData
    end;
  match files_cover req with
  | Some cover =>
      (if negb (Js.falsy_opt currentUser_cover)
       then CloudinaryService.deleteImage rt (default "" currentUser_cover)
       else mret tt);;
      url ← CloudinaryService.uploadImage rt cover covers;
      mret (mkUpdateUserData (upd_username updatedData) (upd_bio updatedData)
              (upd_location updatedData) (upd_full_name updatedData)
              (upd_profile updatedData) (Some url))
  | None => mret updatedData
  end.

Definition updateUserId (req : AuthenticatedRequest) : Async Response :=
  try_catch
    (match validateAuthentication req with
     | None => sendResponse (Message "Unauthorized") 401
     | Some userId =>
         tempUser ← UserService.findUserById rt userId;
         match tempUser with
         | None => sendResponse (Message "User not found") 404
         | Some tempUser =>
             match body_username req with
             | None =>
                 sendResponse
                   (UserEnvelope false (without_password (toObject tempUser))) 200
             | Some name =>
                 if negb (Js.truthy name) then
                   sendResponse
                     (UserEnvelope false (without_password (toObject tempUser))) 200
                 else
                   finalUsername ←
                     (if bool_decide (username (fields tempUser) ≠ Some name) then
                        existingUser ← UserService.findUserByUsername name;
                        match existingUser with
                        | None => mret (Some name)
                        | Some _ => mret (username (fields tempUser))
                        end
                      else mret (username (fields tempUser)));
                   let updatedData :=
                     mkUpdateUserData finalUsername (body_bio req)
                       (body_location req) (body_full_name req) None None in
                   updatedData ← handleImageUploads req updatedData tempUser;
                   updatedUser ← UserService.updateUser rt (_id tempUser) updatedData;
                   match updatedUser with
                   | Some updatedUser =>
                       sendResponse
                         (UserEnvelope true (without_password (toObject updatedUser)))
                         200
                   | None =>
                       throw (ErrorObj "Cannot read properties of null (reading 'toObject')")
                   end
             end
         end
     end)
    (fun error => handleError error "Error in updateUserId").

Definition searchUsers (req : AuthenticatedRequest) : Async Response :=
  try_catch
    (match validateAuthentication req with
     | None => sendResponse (Message "Unauthorized") 401
     | Some userId =>
         match body_input req with
         | None => sendResponse (UsersEnvelope []) 200
         | Some input =>
             if (negb (Js.truthy input)
                 || Nat.eqb (String.length (Js.trim input)) 0)%bool then
               sendResponse (UsersEnvelope []) 200
             else
               filteredUsers ← UserService.searchUsers rt (Js.trim input) userId;
               sendResponse (UsersEnvelope filteredUsers) 200
         end
     end)
    (fun error => handleError error "Error in searchUsers").

Definition followUser (req : AuthenticatedRequest) : Async Response :=
  try_catch
    (match validateAuthentication req with
     | None => sendResponse (Message "Unauthorized") 401
     | Some userId =>
         let followId := body_followId req in
         if String.eqb userId followId then
           sendResponse (Message "You cannot follow yourself") 400
         else
           UserService.addFollowing rt userId followId;;
           sendResponse (Message "Now you are following this user") 200
     end)
    (fun error =>
       if (instanceof_Error error
           && (String.eqb (exn_message error) "Already following this user"
               || String.eqb (exn_message error) "User to follow not found"))%bool
       then sendResponse (Message (exn_message error)) 400
       else handleError error "Error in followUser").

Definition unfollowUser (req : AuthenticatedRequest) : Async Response :=
  try_catch
    (match validateAuthentication req with
     | None => sendResponse (Message "Unauthorized") 401
     | Some userId =>
         let unfollowId := body_unfollowId req in
         if String.eqb userId unfollowId then
           sendResponse (Message "You cannot unfollow yourself") 400
         else
           UserService.removeFollowing rt userId unfollowId;;
           sendResponse (Message "You have unfollowed this user") 200
     end)
    (fun error =>
       if (instanceof_Error error
           && String.eqb (exn_message error) "You are not following this user")%bool
       then sendResponse (Message (exn_message error)) 400
       else handleError error "Error in unfollowUser").

End UserController.
End UserController.

End Core.

(** ** The route-mounted directory module ([modules/user]) *)

Module Directory.

Module UserService.
Section UserService.
Variable rt : Runtime.

Definition getAllUsers : Async (list Document) :=
  Model.find (fun _ => true).

Definition getUserById (id : string) : Async (option Document) :=
  Model.findById rt id.

Definition getUserByUsername (name : string) : Async (option Document) :=
  Model.findOne (fun u => bool_decide (username u = Some name)).

Definition updateUser (id : string) (data : Model.Update)
    : Async (option Document) :=
  Model.findByIdAndUpdate rt id data.

Definition deleteUser (id : string) : Async (option Document) :=
  Model.findByIdAndDelete rt id.

Definition followUser (userId targetId : string) : Async unit :=
  Model.findByIdAndModify rt userId
    (fun u => set_following (Model.addToSet targetId (following u)) u);;
  Model.findByIdAndModify rt targetId
    (fun u => set_followers (Model.addToSet userId (followers u)) u);;
  mret tt.

Definition unfollowUser (userId targetId : string) : Async unit :=
  Model.findByIdAndModify rt userId
    (fun u => set_following (Model.pull targetId (following u)) u);;
  Model.findByIdAndModify rt targetId
    (fun u => set_followers (Model.pull userId (followers u)) u);;
  mret tt.

Definition connectUsers (userId targetId : string) : Async unit :=
  Model.findByIdAndModify rt userId
    (fun u => set_connections (Model.addToSet targetId (connections u)) u);;
  Model.findByIdAndModify rt targetId
    (fun u => set_connections (Model.addToSet userId (connections u)) u);;
  mret tt.

End UserService.
End UserService.

(** The body of [PUT /users/:id]: the four image keys the handler
    takes out, and the remaining keys that are paths of the schema. *)
Record UpdateBody := mkUpdateBody {
  body_profile : option Js.Value;
  body_cover : option Js.Value;
  body_profile_image : option Js.Value;
  body_cover_image : option Js.Value;
  rest_email : option string;
  rest_password : option string;
  rest_full_name : option string;
  rest_username : option string;
  rest_bio : option string;
  rest_location : option string;
  rest_followers : option (list string);
  rest_following : option (list string);
  rest_connections : option (list string)
}.

(** [const updates = { ...rest }] *)
Definition rest (body : UpdateBody) : Model.Update :=
  Model.mkUpdate (rest_email body) (rest_password body) (rest_full_name body)
                 (rest_username body) (rest_bio body) None None
                 (rest_location body) (rest_followers body)
                 (rest_following body) (rest_connections body).

(** [v && typeof v === "string" && v.trim().length > 0], giving the
    string when the test passes. *)
Definition usable_image (v : option Js.Value) : option string :=
  match v with
  | Some (Js.JString s) =>
      if (Js.truthy s && Nat.ltb 0 (String.length (Js.trim s)))%bool
      then Some s else None
  | _ => None
  end.

(** The functions the controller hands to [handleRequest]. *)
Module UserController.
Section UserController.
Variable rt : Runtime.

Definition getAllUsers : Async (list Document) :=
  UserService.getAllUsers.

Definition getUserById (id : string) : Async Document :=
  user ← UserService.getUserById rt id;
  match user with
  | None => throw (ThrownString "User not found")
  | Some user => mret user
  end.

Definition getUserByUsername (name : string) : Async Document :=
  user ← UserService.getUserByUsername name;
  match user with
  | None => throw (ThrownString "User not found")
  | Some user => mret user
  end.

Definition updateUser (id : string) (body : UpdateBody) : Async Document :=
  existingUser ← UserService.getUserById rt id;
  match existingUser with
  | None => throw (ThrownString "User not found")
  | Some existingUser =>
      let updates := rest body in
      let incomingProfile :=
        Js.nullish_coalesce (body_profile body) (body_profile_image body) in
      updates ←
        match usable_image incomingProfile with
        | Some incomingProfile =>
            (if Js.truthy (profile_image (fields existingUser)) then
               try_catch
                 (CloudinaryService.deleteImage rt
                    (profile_image (fields existingUser)))
                 (fun _ => mret tt)
             else mret tt);;
            let profileFile :=
              mkFile (Some (Buffer_from_base64 incomingProfile)) None
                     "image/jpeg" None in
            profileUrl ← CloudinaryService.uploadImage rt profileFile profiles;
            mret (Model.with_profile_image profileUrl updates)
        | None => mret updates
        end;
      let incomingCover :=
        Js.nullish_coalesce (body_cover body) (body_cover_image body) in
      updates ←
        match usable_image incomingCover with
        | Some incomingCover =>
            (if Js.truthy (cover_image (fields existingUser)) then
               try_catch
                 (CloudinaryService.deleteImage rt
                    (cover_image (fields existingUser)))
                 (fun _ => mret tt)
             else mret tt);;
            let coverFile :=
              mkFile (Some (Buffer_from_base64 incomingCover)) None
                     "image/jpeg" None in
            coverUrl ← CloudinaryService.uploadImage rt coverFile covers;
            mret (Model.with_cover_image coverUrl updates)
        | None => mret updates
        end;
      updatedUser ← UserService.updateUser rt id updates;
      match updatedUser with
      | None => throw (ThrownString "User not found")
      | Some updatedUser => mret updatedUser
      end
  end.

Definition deleteUser (id : string) : Async Document :=
  deletedUser ← UserService.deleteUser rt id;
  match deletedUser with
  | None => throw (ThrownString "User not found")
  | Some deletedUser => mret deletedUser
  end.

Definition followUser (userId targetId : string) : Async string :=
  UserService.followUser rt userId targetId;;
  mret "Followed user successfully".

Definition unfollowUser (userId targetId : string) : Async string :=
  UserService.unfollowUser rt userId targetId;;
  mret "Unfollowed user successfully".

Definition connectUsers (userId targetId : string) : Async string :=
  UserService.connectUsers rt userId targetId;;
  mret "Connected users successfully".

End UserController.
End UserController.

End Directory.

(** ** Login ([modules/auth/controller/auth.controller.ts]) *)

Module AuthController.
Section AuthController.
Variable rt : Runtime.

(** The function [login] hands to [handleRequest]: the token and the
    user document it returns as [{ token, user }]. *)
Definition login (email_ password_ : string) : Async (string * Document) :=
  user ← Model.findOne (fun u => String.eqb (email u) email_);
  match user with
  | None => throw (ThrownString "User not found")
  | Some user =>
      if negb (bcrypt_compare rt password_ (password (fields user))) then
        throw (ThrownString "Invalid Credentials")
      else
        let token := jwt_sign rt (_id user) (email (fields user)) in
        mret (token, user)
  end.

End AuthController.

(** [signup] also calls [bcrypt.hash] and [User.create], which are taken
    as they come: [create] receives the body with its password replaced
    and answers with the stored document or throws. *)
Record SignupBody := mkSignupBody {
  signup_email : string;
  signup_password : string;
  signup_full_name : option string;
  signup_username : option string
}.

Section Signup.
Variable rt : Runtime.
Variable bcrypt_hash : string -> string.
Variable create : SignupBody -> Async Document.

Definition signup (body : SignupBody) : Async (string * Document) :=
  existingUser ← Model.findOne (fun u => String.eqb (email u) (signup_email body));
  match existingUser with
  | Some _ => throw (ThrownString "User already exists with this email")
  | None =>
      let hashedPassword := bcrypt_hash (signup_password body) in
      newUser ← create (mkSignupBody (signup_email body) hashedPassword
                          (signup_full_name body) (signup_username body));
      let token := jwt_sign rt (_id newUser) (email (fields newUser)) in
      mret (token, newUser)
  end.

End Signup.
End AuthController.

(** Modelled from the spec: [BaseController.handleRequest] of
    [core/controller/base.controller.ts], which the directory and auth
    controllers call and which is not among the sources.  Following the
    specification's error-handling design, it is the boundary that runs
    the handler, sends what the handler returns as the data of a success
    payload, and turns anything thrown into an error payload. *)
Inductive Envelope (A : Type) :=
| Success (message : string) (data : A)
| Failure (message error : string).
Arguments Success {A} message data.
Arguments Failure {A} message error.

Definition handleRequest {A} (fn : Async A)
    (successMessage errorMessage : string) : Async (Envelope A) :=
  try_catch
    (data ← fn; mret (Success successMessage data))
    (fun error => mret (Failure errorMessage (exn_message error))).

(** ** Predicates used by the properties *)

(** How many times an identifier occurs in a relation list. *)
Definition occurrences (x : string) (l : list string) : nat :=
  length (filter (fun y => y = x) l).

(** No user is listed in one of its own relation lists. *)
Definition no_self (id : string) (u : User) : Prop :=
  (id ∉ followers u) ∧ (id ∉ following u) ∧ (id ∉ connections u).

Definition no_self_relation (w : World) : Prop :=
  forall id u, users w !! id = Some u -> no_self id u.

(** The call [deleteImage] makes to the host for a stored URL. *)
Definition deletion_calls (imageUrl : string) : list CloudCall :=
  match Cloudinary.extractPublicId imageUrl with
  | Some publicId => if Js.truthy publicId then [Destroy publicId] else []
  | None => []
  end.

(** How [uploadImage] ends for what the host answers. *)
Definition upload_outcome (rt : Runtime) (h : list CloudCall) (folder : Folder)
    (file : File) : Outcome string :=
  match uploader_upload_stream rt h folder file with
  | UploadError m => Throw (ErrorObj m)
  | UploadDone (Some url) =>
      if Js.truthy url then Return url
      else Throw (ErrorObj "Upload succeeded but no secure URL returned.")
  | UploadDone None => Throw (ErrorObj "Upload succeeded but no secure URL returned.")
  end.

Arguments upload_outcome : simpl never.

(** The file the directory controller builds from base64 text. *)
Definition jpeg_file (data : string) : File :=
  mkFile (Some (Buffer_from_base64 data)) None "image/jpeg" None.

(** The stored image of a slot. *)
Definition old_image (folder : Folder) (u : User) : string :=
  match folder with profiles => profile_image u | covers => cover_image u end.

(** The image text a body carries for a slot, when it is usable. *)
Definition incoming_image (folder : Folder) (body : Directory.UpdateBody)
    : option string :=
  match folder with
  | profiles =>
      Directory.usable_image
        (Js.nullish_coalesce (Directory.body_profile body)
                             (Directory.body_profile_image body))
  | covers =>
      Directory.usable_image
        (Js.nullish_coalesce (Directory.body_cover body)
                             (Directory.body_cover_image body))
  end.

Arguments incoming_image : simpl never.

(** Replacing the image of one slot, as the host sees it: the result of
    the upload and the log of calls after it. *)
Definition replace_image (rt : Runtime) (u : User) (folder : Folder)
    (data : string) (h : list CloudCall) : Outcome string * list CloudCall :=
  let h1 := (h ++ deletion_calls (old_image folder u))%list in
  (upload_outcome rt h1 folder (jpeg_file data),
   (h1 ++ [UploadStream folder (jpeg_file data)])%list).

(** The directory controller's update of an existing user, written as a
    function of the store and of the host's answers. *)
Definition updateUser_result (rt : Runtime) (id : string)
    (body : Directory.UpdateBody) (u : User) (w : World)
    : Outcome Document * World :=
  let finish (updates : Model.Update) (h : list CloudCall) :=
    let u' := Model.apply_update updates u in
    (Return (mkDocument id u'), mkWorld (<[id := u']> (users w)) h) in
  let cover_stage (updates : Model.Update) (h : list CloudCall) :=
    match incoming_image covers body with
    | Some data =>
        match replace_image rt u covers data h with
        | (Return url, h') => finish (Model.with_cover_image url updates) h'
        | (Throw e, h') => (Throw e, mkWorld (users w) h')
        end
    | None => finish updates h
    end in
  match incoming_image profiles body with
  | Some data =>
      match replace_image rt u profiles data (cloud w) with
      | (Return url, h') =>
          cover_stage (Model.with_profile_image url (Directory.rest body)) h'
      | (Throw e, h') => (Throw e, mkWorld (users w) h')
      end
  | None => cover_stage (Directory.rest body) (cloud w)
  end.

(** Whether the body of a directory update names a path; an image path
    is named by either of its two keys. *)
Definition body_names (body : Directory.UpdateBody) (p : Model.Path) : bool :=
  match p with
  | Model.path_profile_image =>
      bool_decide (is_Some (Directory.body_profile body))
      || bool_decide (is_Some (Directory.body_profile_image body))
  | Model.path_cover_image =>
      bool_decide (is_Some (Directory.body_cover body))
      || bool_decide (is_Some (Directory.body_cover_image body))
  | _ => Model.names (Directory.rest body) p
  end.

(** Whether a request to the guarded profile update names a path. *)
Definition request_names (req : Core.AuthenticatedRequest) (p : Model.Path) : bool :=
  match p with
  | Model.path_username => bool_decide (is_Some (Core.body_username req))
  | Model.path_bio => bool_decide (is_Some (Core.body_bio req))
  | Model.path_location => bool_decide (is_Some (Core.body_location req))
  | Model.path_full_name => bool_decide (is_Some (Core.body_full_name req))
  | Model.path_profile_image => bool_decide (is_Some (Core.files_profile req))
  | Model.path_cover_image => bool_decide (is_Some (Core.files_cover req))
  | _ => false
  end.

(** The store after a successful [addFollowing]. *)
Definition followed (A B : string) (uA uB : User) (m : gmap string User)
    : gmap string User :=
  let m1 := alter (set_following (following uA ++ [B])) A m in
  if Js.includes A (followers uB) then m1
  else alter (set_followers (followers uB ++ [A])) B m1.

(** The characters with a meaning of their own in a regular
    expression. *)
Definition regexp_special (c : ascii) : bool :=
  existsb (Ascii.eqb c)
    ["\"; "^"; "$"; "."; "|"; "?"; "*"; "+"; "("; ")"; "["; "]"; "{"; "}"]%char.

Fixpoint literal_pattern (p : string) : bool :=
  match p with
  | EmptyString => true
  | String c p' => (negb (regexp_special c) && literal_pattern p')%bool
  end.




(** ** A concrete runtime, for evaluating the definitions on examples *)

Module Sample.

Definition is_hex (c : ascii) : bool :=
  let n := nat_of_ascii c in
  ((Nat.leb 48 n && Nat.leb n 57) || (Nat.leb 97 n && Nat.leb n 102)
   || (Nat.leb 65 n && Nat.leb n 70))%bool.

Fixpoint all_hex (s : string) : bool :=
  match s with
  | EmptyString => true
  | String c s' => (is_hex c && all_hex s')%bool
  end.

(** Identifiers are 24 hexadecimal digits. *)
Definition hex24 (s : string) : bool :=
  (Nat.eqb (String.length s) 24 && all_hex s)%bool.

(** Ordinary patterns only; the host accepts every call and names the
    uploaded image after the number of calls made before. *)
Definition runtime : Runtime :=
  mkRuntime hex24
    (fun p => if literal_pattern p then Some (Js.includes_ci p) else None)
    (fun _ _ => true)
    (fun h _ _ => UploadDone (Some ("https://res.cloudinary.com/demo/image/upload/v1/new"
                                     ++ String (ascii_of_nat (48 + length h)) "")))
    (fun _ _ _ => UploadDone (Some "https://res.cloudinary.com/demo/image/upload/v1/disk"))
    10485760%N
    String.eqb
    (fun id _ => "token-" ++ id).

(** The same runtime with a host that rejects every upload. *)
Definition rejecting : Runtime :=
  mkRuntime (ObjectId_isValid runtime) (RegExp_i runtime)
    (uploader_destroy runtime)
    (fun _ _ _ => UploadError "upstream unavailable")
    (fun _ _ _ => UploadError "upstream unavailable")
    (env_MAX_FILE_SIZE runtime) (bcrypt_compare runtime) (jwt_sign runtime).

Definition alice_id := "aaaaaaaaaaaaaaaaaaaaaaaa".
Definition bob_id := "bbbbbbbbbbbbbbbbbbbbbbbb".

Definition alice : User :=
  mkUser "alice@uni.example" "hash-a" "Alice Doe" (Some "alice") "Hey there! I am using Uni-Tribe"
         "https://res.cloudinary.com/demo/image/upload/v1/profiles/old.webp" ""
         "Lahore" [] [] [].

Definition bob : User :=
  mkUser "bob@uni.example" "hash-b" "Bob Roe" (Some "bob") "Hey there! I am using Uni-Tribe"
         "" "" "Karachi" [] [] [].

Definition world : World :=
  mkWorld (<[alice_id := alice]> (<[bob_id := bob]> ∅)) [].

(** A body of [PUT /users/:id] that carries a new bio and a new
    profile image. *)
Definition new_profile : Directory.UpdateBody :=
  Directory.mkUpdateBody (Some (Js.JString "aGVsbG8=")) None None None
    None None None None (Some "Reading") None None None None.

End Sample.

(** ** The authentication gate ([middleware/authentication.ts]) and
    [modules/auth/helper/auth.helper.ts] *)

Module Gate.

(** What the gate and the helper read and write of a request: the
    [authorization] header and the [userId] property the gate sets. *)
Record Request := mkRequest {
  authorization : option string;
  userId : option Js.Value
}.

(** The gate either sends a response itself or calls [next()]. *)
Inductive Passage :=
| Sent (status : nat) (text : string)
| Next (req : Request).

(** [header.split(" ")[1]] *)
Definition second_word (header : string) : option string :=
  Js.split " " header !! 1.

(** The claims of a token [login] and [signup] sign:
    [{ id: user._id, email: user.email }], to which the library adds the
    two time stamps [iat] and [exp]. *)
Definition signed_claims (id email_ : string) : Js.Obj :=
  <["id" := Js.JString id]>
    (<["email" := Js.JString email_]>
       (<["iat" := Js.JOther]> (<["exp" := Js.JOther]> ∅))).

Section Gate.
(** [jwt.verify(token, secretKey)] on a non-empty token: the decoded
    claims, or [None] when it reports an error. *)
Variable jwt_verify : string -> option Js.Obj.

(** The library refuses a missing or empty token before looking at it. *)
Definition verify (token : option string) : option Js.Obj :=
  match token with
  | Some t => if Js.truthy t then jwt_verify t else None
  | None => None
  end.

Definition authenticateToken (req : Request) : Passage :=
  let token :=
    match authorization req with
    | Some header => second_word header
    | None => None
    end in
  if Js.falsy_opt token then Sent 401 "Unauthorized"
  else
    match verify token with
    | None => Sent 403 "Invalid token"
    | Some decoded => Next (mkRequest (authorization req) (decoded !! "userId"))
    end.

Definition getTokenFromHeader (req : Request) : option string :=
  match authorization req with
  | Some header =>
      if Js.truthy header then
        match second_word header with
        | Some t => if Js.truthy t then Some t else None
        | None => None
        end
      else None
  | None => None
  end.

(** [undefined] is [None]: the header is missing, the token does not
    verify, or the claims have no [userId]. *)
Definition getUserIdFromHeader (req : Request) : option Js.Value :=
  match authorization req with
  | Some header =>
      if Js.truthy header then
        match verify (second_word header) with
        | Some decoded => decoded !! "userId"
        | None => None
        end
      else None
  | None => None
  end.

End Gate.

End Gate.

(** ** The upload filter ([middleware] of multer) *)

Module Multer.

Definition allowedMimeTypes : list string :=
  ["image/jpeg"; "image/png"; "image/webp"].

Definition allowedExtensions : list string :=
  [".jpg"; ".jpeg"; ".png"; ".webp"].

Section Multer.
(** [path.extname] *)
Variable path_extname : string -> string.

(** [true] is [cb(null, true)], [false] is [cb(new Error(...))]. *)
Definition fileFilter (originalname : string) (file : File) : bool :=
  let fileExtension := Js.toLowerCase (path_extname originalname) in
  (Js.includes (mimetype file) allowedMimeTypes
   && Js.includes fileExtension allowedExtensions)%bool.

End Multer.

End Multer.

(** ** Predicates used by the further properties *)



(** The two writes of the route-mounted relationship operations, on
    the collection: each changes one list of one document and leaves a
    collection without that document as it is. *)
Definition on_following (f : list string -> list string) (id : string)
    (m : gmap string User) : gmap string User :=
  alter (fun u => set_following (f (following u)) u) id m.

Definition on_followers (f : list string -> list string) (id : string)
    (m : gmap string User) : gmap string User :=
  alter (fun u => set_followers (f (followers u)) u) id m.

Definition on_connections (f : list string -> list string) (id : string)
    (m : gmap string User) : gmap string User :=
  alter (fun u => set_connections (f (connections u)) u) id m.

Definition follow_store (A B : string) (m : gmap string User) : gmap string User :=
  on_followers (Model.addToSet A) B (on_following (Model.addToSet B) A m).

Definition unfollow_store (A B : string) (m : gmap string User) : gmap string User :=
  on_followers (Model.pull A) B (on_following (Model.pull B) A m).

Definition connect_store (A B : string) (m : gmap string User) : gmap string User :=
  on_connections (Model.addToSet A) B (on_connections (Model.addToSet B) A m).



(** The user objects a payload carries. *)
Definition payload_objects (p : Payload) : list Js.Obj :=
  match p with
  | Message _ | ServerError _ _ => []
  | UserObject o => [o]
  | UserEnvelope _ o => [o]
  | UsersEnvelope l => l
  end.

(** A handler has answered, and with no password in its payload. *)
Definition answers_safely (r : Outcome Response * World) : Prop :=
  exists resp w', r = (Return resp, w')
    /\ forall o, o ∈ payload_objects (json resp) -> o !! "password" = None.

(** A request that reached a guarded handler with no identity. *)
Definition unauthenticated (req : Core.AuthenticatedRequest) : Prop :=
  Core.user_id req = None \/ Core.user_id req = Some "".

(** A call to the image host that uploads. *)
Definition is_upload (c : CloudCall) : bool :=
  match c with
  | Destroy _ => false
  | UploadStream _ _ | Upload _ _ => true
  end.

(** The string [s] does not hold the character [c]. *)
Fixpoint no_char (c : ascii) (s : string) : bool :=
  match s with
  | EmptyString => true
  | String a s' => (negb (Ascii.eqb a c) && no_char c s')%bool
  end.

(** ** Further stores for examples *)

Module Scene.

Definition carol_id := "cccccccccccccccccccccccc".

(** Alice follows Bob, and also an identifier that is no ObjectId. *)
Definition alice : User :=
  set_following [Sample.bob_id; "not-an-id"] Sample.alice.

Definition bob : User := set_followers [Sample.alice_id] Sample.bob.

Definition world : World :=
  mkWorld (<[Sample.alice_id := alice]> (<[Sample.bob_id := bob]> ∅)) [].

(** A request to the guarded controller from Alice that names [id] as
    the user to follow or unfollow. *)
Definition naming (id : string) : Core.AuthenticatedRequest :=
  Core.mkRequest (Some Sample.alice_id) None None None None None id id None None.

End Scene.

(** * Properties *)

(** ** The string primitives on examples *)

Example trim_example : Js.trim "  uni tribe  " = "uni tribe".
Proof. reflexivity. Qed.

Example trim_blank : Js.trim "   " = "".
Proof. reflexivity. Qed.

Example includes_ci_example : Js.includes_ci "LAH" "Lahore" = true.
Proof. reflexivity. Qed.

Example split_example : Js.split "/" "a//b" = ["a"; ""; "b"].
Proof. reflexivity. Qed.

Example extractPublicId_example :
  Cloudinary.extractPublicId
    "https://res.cloudinary.com/demo/image/upload/v1234567890/sample.jpg"
  = Some "sample".
Proof. reflexivity. Qed.

Example extractPublicId_nested :
  Cloudinary.extractPublicId
    "https://res.cloudinary.com/demo/image/upload/v1/user-uploads/profiles/a.b.webp"
  = Some "user-uploads/profiles/a.b".
Proof. reflexivity. Qed.

Example extractPublicId_foreign :
  Cloudinary.extractPublicId "https://example.org/avatar.png" = None.
Proof. reflexivity. Qed.

(** ** Lists of identifiers *)

Lemma includes_true x l : Js.includes x l = true <-> x ∈ l.
Proof.
  unfold Js.includes. rewrite existsb_exists. split.
  - intros (y & Hy & Heq). apply String.eqb_eq in Heq. subst y.
    by apply list_elem_of_In.
  - intros Hx. exists x. split; [by apply list_elem_of_In | apply String.eqb_refl].
Qed.

Lemma includes_false x l : Js.includes x l = false <-> x ∉ l.
Proof.
  rewrite <- includes_true. destruct (Js.includes x l); split; congruence.
Qed.

Lemma filter_ne_absent (x : string) (l : list string) :
  x ∉ l -> filter (fun y => y ≠ x) l = l.
Proof.
  induction l as [|y l IH]; [done|].
  intros Hx. apply not_elem_of_cons in Hx as [Hne Hl].
  rewrite filter_cons_True by congruence. by rewrite IH.
Qed.

Lemma filter_ne_snoc (x : string) (l : list string) :
  x ∉ l -> filter (fun y => y ≠ x) (l ++ [x])%list = l.
Proof.
  intros Hx. rewrite filter_app, filter_ne_absent by done.
  rewrite filter_cons_False by (intros H; by apply H).
  by rewrite filter_nil, app_nil_r.
Qed.

Lemma occurrences_app x l1 l2 :
  occurrences x (l1 ++ l2)%list = occurrences x l1 + occurrences x l2.
Proof. unfold occurrences. by rewrite filter_app, length_app. Qed.

Lemma occurrences_singleton x : occurrences x [x] = 1.
Proof. unfold occurrences. by rewrite filter_cons_True. Qed.

Lemma occurrences_absent x l : x ∉ l -> occurrences x l = 0.
Proof.
  unfold occurrences. induction l as [|y l IH]; [done|].
  intros Hx. apply not_elem_of_cons in Hx as [Hne Hl].
  rewrite filter_cons_False by congruence. auto.
Qed.

Lemma occurrences_present x l : x ∈ l -> 1 <= occurrences x l.
Proof.
  unfold occurrences. induction l as [|y l IH]; [by intros ?%elem_of_nil|].
  intros [->|Hx]%elem_of_cons.
  - rewrite filter_cons_True by done. simpl. lia.
  - destruct (decide (y = x)).
    + rewrite filter_cons_True by done. simpl. lia.
    + rewrite filter_cons_False by done. auto.
Qed.

(** ** Running the guarded service *)

Ltac run :=
  repeat (unfold mbind, mret, Async_bind, Async_ret, bind, ret, throw,
            try_catch, Model.cast_id; simpl).

Lemma findUserById_run rt id w :
  ObjectId_isValid rt id = true ->
  Core.UserService.findUserById rt id w
  = (Return (mkDocument id <$> users w !! id), w).
Proof.
  intros Hid. unfold Core.UserService.findUserById, Model.findById.
  rewrite Hid. run. by rewrite Hid.
Qed.


Lemma addFollowing_new rt w A B uA uB :
  ObjectId_isValid rt A = true -> ObjectId_isValid rt B = true ->
  users w !! A = Some uA -> users w !! B = Some uB ->
  B ∉ following uA ->
  Core.UserService.addFollowing rt A B w
  = (Return tt, mkWorld (followed A B uA uB (users w)) (cloud w)).
Proof.
  intros HA HB HuA HuB Hnew. unfold Core.UserService.addFollowing. run.
  rewrite findUserById_run by done. rewrite HuA. simpl.
  rewrite findUserById_run by done. rewrite HuB. simpl.
  apply includes_false in Hnew. rewrite Hnew. unfold followed, save_path. simpl.
  by destruct (Js.includes A (followers uB)).
Qed.

Lemma addFollowing_again rt w A B uA uB :
  ObjectId_isValid rt A = true -> ObjectId_isValid rt B = true ->
  users w !! A = Some uA -> users w !! B = Some uB ->
  B ∈ following uA ->
  Core.UserService.addFollowing rt A B w
  = (Throw (ErrorObj "Already following this user"), w).
Proof.
  intros HA HB HuA HuB Hold. unfold Core.UserService.addFollowing. run.
  rewrite findUserById_run by done. rewrite HuA. simpl.
  rewrite findUserById_run by done. rewrite HuB. simpl.
  apply includes_true in Hold. by rewrite Hold.
Qed.

Lemma followed_follower A B uA uB m :
  m !! A = Some uA -> m !! B = Some uB ->
  exists uA', followed A B uA uB m !! A = Some uA'
    /\ following uA' = (following uA ++ [B])%list.
Proof.
  intros HuA HuB. unfold followed.
  destruct (Js.includes A (followers uB)).
  - eexists. rewrite lookup_alter_eq, HuA. simpl. done.
  - destruct (decide (B = A)) as [->|Hne].
    + eexists. rewrite !lookup_alter_eq, HuA. simpl. done.
    + eexists. rewrite lookup_alter_ne, lookup_alter_eq, HuA by done. simpl. done.
Qed.

Lemma followed_target A B uA uB m :
  m !! A = Some uA -> m !! B = Some uB ->
  exists uB', followed A B uA uB m !! B = Some uB'
    /\ followers uB' = (if Js.includes A (followers uB) then followers uB
                        else followers uB ++ [A])%list.
Proof.
  intros HuA HuB. unfold followed.
  destruct (Js.includes A (followers uB)) eqn:Hin.
  - destruct (decide (A = B)) as [->|Hne].
    + assert (uA = uB) as -> by congruence.
      eexists. rewrite lookup_alter_eq, HuB. simpl. done.
    + eexists. rewrite lookup_alter_ne, HuB by done. done.
  - destruct (decide (A = B)) as [->|Hne].
    + assert (uA = uB) as -> by congruence.
      eexists. rewrite !lookup_alter_eq, HuB. simpl. done.
    + eexists. rewrite lookup_alter_eq, lookup_alter_ne, HuB by done. simpl. done.
Qed.

(** C1, as amended.  For existing users A and B where A does not yet
    follow B, the first [addFollowing (A, B)] succeeds, the second fails
    with 'Already following this user' and changes nothing, and B's
    followers list then holds A as many times as before, or once when it
    did not hold A: no occurrence is added to one already there. *)
Theorem addFollowing_twice rt w A B uA uB :
  ObjectId_isValid rt A = true -> ObjectId_isValid rt B = true ->
  users w !! A = Some uA -> users w !! B = Some uB ->
  B ∉ following uA ->
  exists w1 uB',
    Core.UserService.addFollowing rt A B w = (Return tt, w1)
    /\ Core.UserService.addFollowing rt A B w1
       = (Throw (ErrorObj "Already following this user"), w1)
    /\ users w1 !! B = Some uB'
    /\ occurrences A (followers uB') = Nat.max 1 (occurrences A (followers uB))
    /\ (occurrences A (followers uB) <= 1 -> occurrences A (followers uB') = 1).
Proof.
  intros HA HB HuA HuB Hnew.
  destruct (followed_follower A B uA uB (users w) HuA HuB) as (uA' & HuA' & HfA).
  destruct (followed_target A B uA uB (users w) HuA HuB) as (uB' & HuB' & HfB).
  exists (mkWorld (followed A B uA uB (users w)) (cloud w)), uB'.
  assert (Hocc : occurrences A (followers uB')
                 = Nat.max 1 (occurrences A (followers uB))).
  { rewrite HfB. destruct (Js.includes A (followers uB)) eqn:Hin.
    - apply includes_true, occurrences_present in Hin. lia.
    - apply includes_false, occurrences_absent in Hin.
      by rewrite occurrences_app, Hin, occurrences_singleton. }
  split; [by eapply addFollowing_new|].
  split.
  { eapply addFollowing_again; simpl; eauto.
    rewrite HfA. apply elem_of_app. right. by apply list_elem_of_singleton. }
  split; [done|]. split; [done|]. lia.
Qed.

Lemma addFollowing_twice_witness :
  exists w1 uB',
    Core.UserService.addFollowing Sample.runtime Sample.alice_id Sample.bob_id
      Sample.world = (Return tt, w1)
    /\ Core.UserService.addFollowing Sample.runtime Sample.alice_id Sample.bob_id w1
       = (Throw (ErrorObj "Already following this user"), w1)
    /\ users w1 !! Sample.bob_id = Some uB'
    /\ occurrences Sample.alice_id (followers uB')
       = Nat.max 1 (occurrences Sample.alice_id (followers Sample.bob))
    /\ (occurrences Sample.alice_id (followers Sample.bob) <= 1 ->
        occurrences Sample.alice_id (followers uB') = 1).
Proof.
  apply (addFollowing_twice Sample.runtime Sample.world Sample.alice_id
           Sample.bob_id Sample.alice Sample.bob);
    [reflexivity | reflexivity | reflexivity | reflexivity | apply not_elem_of_nil].
Defined.

(** C1, as stated, fails when B's followers list already holds A more
    than once: A does not follow B, both calls behave as described, and
    B's followers list holds A twice afterwards. *)
Lemma addFollowing_twice_keeps_duplicates :
  let A := Sample.alice_id in
  let B := Sample.bob_id in
  let uB := set_followers [A; A] Sample.bob in
  let w := mkWorld (<[A := Sample.alice]> (<[B := uB]> ∅)) [] in
  ObjectId_isValid Sample.runtime A = true
  /\ ObjectId_isValid Sample.runtime B = true
  /\ users w !! A = Some Sample.alice
  /\ users w !! B = Some uB
  /\ (B ∉ following Sample.alice)
  /\ exists w1,
       Core.UserService.addFollowing Sample.runtime A B w = (Return tt, w1)
       /\ Core.UserService.addFollowing Sample.runtime A B w1
          = (Throw (ErrorObj "Already following this user"), w1)
       /\ followers <$> users w1 !! B = Some [A; A]
       /\ occurrences A [A; A] = 2.
Proof.
  repeat split; try reflexivity; [apply not_elem_of_nil|].
  eexists. split; [vm_compute; reflexivity|].
  repeat split; vm_compute; reflexivity.
Qed.


Lemma set_following_undo B u :
  B ∉ following u ->
  set_following (filter (fun id => id ≠ B) (following u ++ [B])%list)
    (set_following (following u ++ [B])%list u) = u.
Proof. intros H. destruct u. unfold set_following. simpl in *. by rewrite filter_ne_snoc. Qed.

Lemma set_followers_undo A u :
  A ∉ followers u ->
  set_followers (filter (fun id => id ≠ A) (followers u ++ [A])%list)
    (set_followers (followers u ++ [A])%list u) = u.
Proof. intros H. destruct u. unfold set_followers. simpl in *. by rewrite filter_ne_snoc. Qed.

(** C3.  For distinct existing users A and B where A does not follow B
    and A is not in B's followers list, [addFollowing (A, B)] followed by
    [removeFollowing (A, B)] succeeds twice and gives back the store it
    started from, so A's following list and B's followers list are
    exactly what they were. *)
Theorem follow_unfollow_roundtrip rt w A B uA uB :
  ObjectId_isValid rt A = true -> ObjectId_isValid rt B = true ->
  A ≠ B ->
  users w !! A = Some uA -> users w !! B = Some uB ->
  B ∉ following uA -> A ∉ followers uB ->
  exists w1,
    Core.UserService.addFollowing rt A B w = (Return tt, w1)
    /\ Core.UserService.removeFollowing rt A B w1 = (Return tt, w)
    /\ (exists uA1, users w1 !! A = Some uA1
                    /\ following uA1 = (following uA ++ [B])%list)
    /\ (exists uB1, users w1 !! B = Some uB1
                    /\ followers uB1 = (followers uB ++ [A])%list).
Proof.
  intros HA HB Hne HuA HuB HnA HnB.
  eexists. split; [by eapply addFollowing_new|].
  pose proof HnB as Hinc. apply includes_false in Hinc.
  unfold followed. rewrite Hinc.
  split; [|split].
  - unfold Core.UserService.removeFollowing. run.
    rewrite findUserById_run by done. simpl.
    rewrite lookup_alter_ne, lookup_alter_eq, HuA by done. simpl.
    assert (Js.includes B (following uA ++ [B]) = true) as ->.
    { apply includes_true, elem_of_app. right. by apply list_elem_of_singleton. }
    simpl. unfold save_path. simpl.
    rewrite findUserById_run by done. simpl.
    rewrite lookup_alter_ne, lookup_alter_eq, lookup_alter_ne, HuB by done. simpl.
    assert (Js.includes A (followers uB ++ [A]) = true) as ->.
    { apply includes_true, elem_of_app. right. by apply list_elem_of_singleton. }
    simpl. destruct w as [m c]. simpl in *. f_equal. f_equal.
    rewrite (alter_alter_ne _ _ _ A B) by done.
    rewrite !alter_alter_eq.
    rewrite (alter_id _ m A).
    + apply alter_id. intros x Hx. assert (x = uB) as -> by congruence.
      simpl. by apply set_followers_undo.
    + intros x Hx. assert (x = uA) as -> by congruence.
      simpl. by apply set_following_undo.
  - eexists. simpl. by rewrite lookup_alter_ne, lookup_alter_eq, HuA by done.
  - eexists. simpl. by rewrite lookup_alter_eq, lookup_alter_ne, HuB by done.
Qed.

Lemma follow_unfollow_roundtrip_witness :
  exists w1,
    Core.UserService.addFollowing Sample.runtime Sample.alice_id Sample.bob_id
      Sample.world = (Return tt, w1)
    /\ Core.UserService.removeFollowing Sample.runtime Sample.alice_id
         Sample.bob_id w1 = (Return tt, Sample.world)
    /\ (exists uA1, users w1 !! Sample.alice_id = Some uA1
                    /\ following uA1 = (following Sample.alice ++ [Sample.bob_id])%list)
    /\ (exists uB1, users w1 !! Sample.bob_id = Some uB1
                    /\ followers uB1 = (followers Sample.bob ++ [Sample.alice_id])%list).
Proof.
  apply (follow_unfollow_roundtrip Sample.runtime Sample.world Sample.alice_id
           Sample.bob_id Sample.alice Sample.bob);
    [reflexivity | reflexivity | discriminate | reflexivity | reflexivity
    | apply not_elem_of_nil | apply not_elem_of_nil].
Defined.



(** ** The self-relation invariant *)



Lemma no_self_relation_cloud m c c' :
  no_self_relation (mkWorld m c) -> no_self_relation (mkWorld m c').
Proof. intros H i u. apply (H i u). Qed.

















(** ** Plain objects *)

Lemma toObject_password d :
  toObject d !! "password" = Some (Js.JString (password (fields d))).
Proof. unfold toObject. destruct (username (fields d)); reflexivity. Qed.


Lemma without_password_password o : without_password o !! "password" = None.
Proof. apply lookup_delete_eq. Qed.


(** ** Queries *)

Lemma elem_of_find_all w d :
  d ∈ Model.find_all w <-> users w !! _id d = Some (fields d).
Proof.
  unfold Model.find_all. rewrite list_elem_of_fmap. split.
  - intros ([i u] & -> & H). by apply elem_of_map_to_list in H.
  - intros H. exists (_id d, fields d). split; [by destruct d|].
    by apply elem_of_map_to_list.
Qed.

Lemma head_filter_found (q : User -> bool) w id u :
  users w !! id = Some u -> q u = true ->
  exists d, head (filter (fun d => q (fields d) = true) (Model.find_all w)) = Some d
            /\ q (fields d) = true.
Proof.
  intros Hu Hq.
  assert (Hin : mkDocument id u
                  ∈ filter (fun d => q (fields d) = true) (Model.find_all w)).
  { apply list_elem_of_filter. split; [done|]. by apply elem_of_find_all. }
  destruct (filter _ (Model.find_all w)) as [|d l] eqn:Hl.
  - by apply elem_of_nil in Hin.
  - exists d. split; [done|].
    assert (Hd : d ∈ d :: l) by (apply elem_of_cons; by left).
    rewrite <- Hl in Hd. by apply list_elem_of_filter in Hd as [? _].
Qed.

(** ** Images in the guarded profile update *)

Lemma Core_uploadImage_users rt file folder w :
  users (Core.CloudinaryService.uploadImage rt file folder w).2 = users w.
Proof.
  unfold Core.CloudinaryService.uploadImage, Cloudinary.upload_stream,
    Cloudinary.upload. run.
  destruct (negb _); simpl; [done|].
  destruct (match size file with Some _ => _ | None => _ end); simpl; [done|].
  destruct (buffer file), (path file) as [p|]; simpl;
    try destruct (Js.truthy p); simpl;
    try destruct (uploader_upload_stream _ _ _ _) as [?|[u|]]; simpl;
    try destruct (uploader_upload _ _ _ _) as [?|[u|]]; simpl;
    try destruct (Js.truthy u); done.
Qed.

Lemma handleImageUploads_frame rt req d doc w :
  users (Core.UserController.handleImageUploads rt req d doc w).2 = users w
  /\ forall d', (Core.UserController.handleImageUploads rt req d doc w).1 = Return d' ->
       Core.upd_username d' = Core.upd_username d
       /\ Core.upd_bio d' = Core.upd_bio d
       /\ Core.upd_location d' = Core.upd_location d
       /\ Core.upd_full_name d' = Core.upd_full_name d.
Proof.
  unfold Core.UserController.handleImageUploads. run.
  destruct (Core.files_profile req) as [fp|]; simpl.
  - pose proof (Core_uploadImage_users rt fp profiles w) as Hp.
    destruct (Core.CloudinaryService.uploadImage rt fp profiles w) as [[url|e] w1];
      simpl in *; [|split; [done|discriminate]].
    destruct (Core.files_cover req) as [fc|]; simpl.
    + pose proof (Core_uploadImage_users rt fc covers w1) as Hc.
      destruct (Core.CloudinaryService.uploadImage rt fc covers w1) as [[url'|e] w2];
        simpl in *; (split; [congruence|]); [|discriminate].
      by intros d' [= <-].
    + split; [done|]. by intros d' [= <-].
  - destruct (Core.files_cover req) as [fc|]; simpl.
    + pose proof (Core_uploadImage_users rt fc covers w) as Hc.
      destruct (Core.CloudinaryService.uploadImage rt fc covers w) as [[url'|e] w2];
        simpl in *; (split; [congruence|]); [|discriminate].
      by intros d' [= <-].
    + split; [done|]. by intros d' [= <-].
Qed.



(** ** Passwords in payloads *)

(** The guarded controller strips the password from the user it
    returns. *)
Lemma Core_getUserId_no_password rt req w r w' o :
  Core.UserController.getUserId rt req w = (Return r, w') ->
  json r = UserObject o -> o !! "password" = None.
Proof.
  unfold Core.UserController.getUserId, Core.UserService.findUserById,
    Model.findById. run.
  destruct (Core.BaseController.validateAuthentication req) as [uid|]; simpl;
    [|intros [= <- _]; discriminate].
  destruct (ObjectId_isValid rt uid); simpl; [|intros [= <- _]; discriminate].
  destruct (users w !! uid); simpl; intros [= <- _]; [|discriminate].
  simpl. intros [= <-]. apply without_password_password.
Qed.

(** C7: the claim fails on the directory controller.  For an existing user,
    the handler of [GET /users/:id] succeeds and the data of the success
    payload is the stored document itself, whose serialised form carries
    the stored password. *)
Theorem Directory_getUserById_password rt w id u :
  ObjectId_isValid rt id = true ->
  users w !! id = Some u ->
  handleRequest (Directory.UserController.getUserById rt id)
    "Fetched user successfully" "Failed to fetch user" w
  = (Return (Success "Fetched user successfully" (mkDocument id u)), w)
  /\ toObject (mkDocument id u) !! "password" = Some (Js.JString (password u)).
Proof.
  intros Hid Hu. split; [|apply toObject_password].
  unfold handleRequest, Directory.UserController.getUserById,
    Directory.UserService.getUserById, Model.findById. run.
  by rewrite Hid, Hu.
Qed.

Lemma Directory_getUserById_password_witness :
  handleRequest (Directory.UserController.getUserById Sample.runtime Sample.alice_id)
    "Fetched user successfully" "Failed to fetch user" Sample.world
  = (Return (Success "Fetched user successfully"
               (mkDocument Sample.alice_id Sample.alice)), Sample.world)
  /\ toObject (mkDocument Sample.alice_id Sample.alice) !! "password"
     = Some (Js.JString "hash-a").
Proof.
  apply (Directory_getUserById_password Sample.runtime Sample.world
           Sample.alice_id Sample.alice); reflexivity.
Defined.

(** The same holds of login: the user of [{ token, user }] is the
    stored document. *)
Lemma login_password :
  handleRequest (AuthController.login Sample.runtime "alice@uni.example" "hash-a")
    "Login Successful" "Failed to log in" Sample.world
  = (Return (Success "Login Successful"
               ("token-aaaaaaaaaaaaaaaaaaaaaaaa",
                mkDocument Sample.alice_id Sample.alice)), Sample.world)
  /\ toObject (mkDocument Sample.alice_id Sample.alice) !! "password"
     = Some (Js.JString "hash-a").
Proof. split; vm_compute; reflexivity. Qed.

(** ** Search *)







(** ** The image service *)

(** [deleteImage] always returns: a rejected [destroy] is caught. *)
Lemma deleteImage_run rt imageUrl w :
  Cloudinary.deleteImage rt imageUrl w
  = (Return tt, mkWorld (users w) (cloud w ++ deletion_calls imageUrl)).
Proof.
  unfold Cloudinary.deleteImage, deletion_calls, Cloudinary.destroy. run.
  destruct w as [m c]. simpl.
  destruct (Cloudinary.extractPublicId imageUrl) as [pid|]; simpl;
    [|by rewrite app_nil_r].
  destruct (Js.truthy pid); simpl; [|by rewrite app_nil_r].
  by destruct (uploader_destroy rt c pid).
Qed.

Lemma uploadImage_run rt data folder w :
  CloudinaryService.uploadImage rt (jpeg_file data) folder w
  = (upload_outcome rt (cloud w) folder (jpeg_file data),
     mkWorld (users w) (cloud w ++ [UploadStream folder (jpeg_file data)])).
Proof.
  unfold CloudinaryService.uploadImage, CloudinaryService.validateFile,
    Cloudinary.upload_stream, upload_outcome. run.
  destruct (uploader_upload_stream rt (cloud w) folder (jpeg_file data))
    as [m|[url|]]; simpl; try done.
  by destruct (Js.truthy url).
Qed.

Lemma deletion_calls_empty : deletion_calls "" = [].
Proof. reflexivity. Qed.

(** The deletion of the old image and the upload of the new one, in
    the order the controller performs them. *)
Lemma replace_image_run rt u folder data w :
  let del : Async unit :=
    if Js.truthy (old_image folder u) then
      try_catch (CloudinaryService.deleteImage rt (old_image folder u))
                (fun _ => mret tt)
    else mret tt in
  (del;; CloudinaryService.uploadImage rt (jpeg_file data) folder) w
  = ((replace_image rt u folder data (cloud w)).1,
     mkWorld (users w) (replace_image rt u folder data (cloud w)).2).
Proof.
  simpl. unfold replace_image, CloudinaryService.deleteImage. run.
  destruct (Js.truthy (old_image folder u)) eqn:Hold; simpl.
  - rewrite deleteImage_run. simpl. by rewrite uploadImage_run.
  - assert (old_image folder u = "") as -> by (by destruct (old_image folder u)).
    rewrite deletion_calls_empty, app_nil_r. run. by rewrite uploadImage_run.
Qed.

Ltac image_stage old url :=
  let H := fresh "Hold" in
  destruct (Js.truthy old) eqn:H; simpl;
  [ unfold CloudinaryService.deleteImage; rewrite deleteImage_run; simpl
  | assert (old = "") as -> by (by destruct old);
    rewrite ?deletion_calls_empty, ?app_nil_r ];
  repeat match goal with
  | |- context [mkFile (Some (Buffer_from_base64 ?d)) None "image/jpeg" None] =>
      change (mkFile (Some (Buffer_from_base64 d)) None "image/jpeg" None)
        with (jpeg_file d)
  end;
  rewrite uploadImage_run; simpl;
  match goal with
  | |- context [upload_outcome ?rt ?h ?f ?d] =>
      destruct (upload_outcome rt h f d) as [url|?]; simpl
  end.

(** The controller's update of an existing user is the function
    [updateUser_result] of the store and of the host's answers. *)
Lemma updateUser_run rt id body w u :
  ObjectId_isValid rt id = true ->
  users w !! id = Some u ->
  Directory.UserController.updateUser rt id body w = updateUser_result rt id body u w.
Proof.
  intros Hid Hu.
  unfold Directory.UserController.updateUser, Directory.UserService.getUserById,
    Directory.UserService.updateUser, Model.findByIdAndUpdate,
    Model.findByIdAndModify, Model.findById, updateUser_result, incoming_image,
    replace_image, old_image.
  run. rewrite Hid, Hu. simpl.
  destruct (Directory.usable_image
              (Js.nullish_coalesce (Directory.body_profile body)
                 (Directory.body_profile_image body))) as [dataP|]; simpl;
  destruct (Directory.usable_image
              (Js.nullish_coalesce (Directory.body_cover body)
                 (Directory.body_cover_image body))) as [dataC|]; simpl.
  - image_stage (profile_image u) urlP;
      [image_stage (cover_image u) urlC | | image_stage (cover_image u) urlC | ];
      rewrite ?Hid; simpl; rewrite ?Hu; reflexivity.
  - image_stage (profile_image u) urlP; rewrite ?Hid; simpl; rewrite ?Hu; reflexivity.
  - image_stage (cover_image u) urlC; rewrite ?Hid; simpl; rewrite ?Hu; reflexivity.
  - rewrite ?Hid; simpl; rewrite ?Hu; reflexivity.
Qed.






(** ** What an update leaves alone *)

Lemma apply_update_frame d p u :
  Model.names d p = false -> Model.get p (Model.apply_update d u) = Model.get p u.
Proof.
  destruct d, p; simpl; intros H; apply bool_decide_eq_false in H;
    match goal with
    | H : ¬ is_Some ?x |- _ => destruct x; [destruct H; eauto | reflexivity]
    end.
Qed.

Lemma incoming_image_named folder body data :
  incoming_image folder body = Some data ->
  body_names body (match folder with
                   | profiles => Model.path_profile_image
                   | covers => Model.path_cover_image
                   end) = true.
Proof.
  unfold incoming_image, body_names, Directory.usable_image, Js.nullish_coalesce.
  destruct folder.
  - destruct (Directory.body_profile body) as [[]|],
      (Directory.body_profile_image body) as [[]|]; simpl; done.
  - destruct (Directory.body_cover body) as [[]|],
      (Directory.body_cover_image body) as [[]|]; simpl; done.
Qed.

(** The store after a directory update: untouched, or the user at [id]
    updated on paths the body names. *)
Lemma Directory_updateUser_store rt id body w u :
  users w !! id = Some u ->
  exists updates,
    (users (Directory.UserController.updateUser rt id body w).2 = users w
     \/ users (Directory.UserController.updateUser rt id body w).2
        = <[id := Model.apply_update updates u]> (users w))
    /\ forall p, Model.names updates p = true -> body_names body p = true.
Proof.
  intros Hu. destruct (ObjectId_isValid rt id) eqn:Hid.
  2:{ exists (Directory.rest body). split; [left|].
      - unfold Directory.UserController.updateUser, Directory.UserService.getUserById,
          Model.findById. run. by rewrite Hid.
      - intros p. by destruct p. }
  rewrite (updateUser_run rt id body w u Hid Hu).
  unfold updateUser_result, replace_image.
  destruct (incoming_image profiles body) as [dataP|] eqn:HP;
    [apply incoming_image_named in HP;
     destruct (upload_outcome rt _ profiles _) as [urlP|e]|];
    try (destruct (incoming_image covers body) as [dataC|] eqn:HC;
         [apply incoming_image_named in HC;
          destruct (upload_outcome rt _ covers _) as [urlC|e']|]); simpl.
  all: try (exists (Directory.rest body); split; [by left|]; intros p; by destruct p).
  - exists (Model.with_cover_image urlC
              (Model.with_profile_image urlP (Directory.rest body))).
    split; [by right|]. intros p. by destruct p.
  - exists (Model.with_profile_image urlP (Directory.rest body)).
    split; [by right|]. intros p. by destruct p.
  - exists (Model.with_cover_image urlC (Directory.rest body)).
    split; [by right|]. intros p. by destruct p.
  - exists (Directory.rest body). split; [by right|]. intros p. by destruct p.
Qed.

(** The store after the guarded profile update. *)
Lemma Core_updateUserId_store rt req w id u :
  Core.BaseController.validateAuthentication req = Some id ->
  users w !! id = Some u ->
  exists d,
    (users (Core.UserController.updateUserId rt req w).2 = users w
     \/ users (Core.UserController.updateUserId rt req w).2
        = <[id := Model.apply_update (Core.schema_update d) u]> (users w))
    /\ forall p, Model.names (Core.schema_update d) p = true ->
                 request_names req p = true.
Proof.
  intros Hauth Hu.
  set (none := Core.mkUpdateUserData None None None None None None).
  assert (Hnone : forall p, Model.names (Core.schema_update none) p = true ->
                            request_names req p = true) by (intros p; by destruct p).
  unfold Core.UserController.updateUserId, Core.UserService.findUserById,
    Model.findById. run. rewrite Hauth.
  destruct (ObjectId_isValid rt id) eqn:Hid; simpl; [|exists none; eauto].
  rewrite Hu. simpl.
  destruct (Core.body_username req) as [name|] eqn:Hname; simpl; [|exists none; eauto].
  destruct (Js.truthy name); simpl; [|exists none; eauto].
  case_bool_decide; [destruct (head _); simpl|].
  all: set (data := Core.mkUpdateUserData _ _ _ _ None None).
  all: destruct (handleImageUploads_frame rt req data (mkDocument id u) w)
         as (Hus & Hkeep).
  all: destruct (Core.UserController.handleImageUploads rt req data
                   (mkDocument id u) w) as [[d'|e] w1];
         simpl in *; [|exists none; eauto].
  all: destruct (Hkeep d' eq_refl) as (Hn & Hb & Hl & Hf).
  all: unfold Core.UserService.updateUser, Model.findByIdAndUpdate,
         Model.findByIdAndModify; run; rewrite ?Hid; simpl; rewrite Hus, Hu; simpl.
  all: exists d'; (split; [by right|]).
  all: intros p; destruct p; simpl; try done;
         rewrite ?Hn, ?Hb, ?Hl, ?Hf, ?Hname; simpl; try done.
  all: intros _; by apply bool_decide_eq_true.
Qed.

Lemma store_frame (m m' : gmap string User) id u updates :
  m !! id = Some u ->
  m' = m \/ m' = <[id := Model.apply_update updates u]> m ->
  (exists u', m' !! id = Some u'
              /\ forall p, Model.names updates p = false ->
                           Model.get p u' = Model.get p u)
  /\ forall id', id' ≠ id -> m' !! id' = m !! id'.
Proof.
  intros Hu [->| ->].
  - split; [|done]. exists u. done.
  - split; [|intros id' Hne; by rewrite lookup_insert_ne].
    exists (Model.apply_update updates u). split; [apply lookup_insert_eq|].
    intros p Hp. by apply apply_update_frame.
Qed.

(** C9.  For an existing user, both update operations change the
    stored user only on paths their input names and change no other
    user: the directory controller's [updateUser] for every body, and
    the guarded [updateUserId] for every request of that user.  In
    particular a directory update whose body has none of the four image
    keys leaves [profile_image] and [cover_image] as they were and makes
    no call to the image host. *)
Theorem update_frame rt w id u :
  users w !! id = Some u ->
  (forall body,
     let w' := (Directory.UserController.updateUser rt id body w).2 in
     (exists u', users w' !! id = Some u'
                 /\ forall p, body_names body p = false ->
                              Model.get p u' = Model.get p u)
     /\ (forall id', id' ≠ id -> users w' !! id' = users w !! id'))
  /\ (forall req,
        Core.BaseController.validateAuthentication req = Some id ->
        let w' := (Core.UserController.updateUserId rt req w).2 in
        (exists u', users w' !! id = Some u'
                    /\ forall p, request_names req p = false ->
                                 Model.get p u' = Model.get p u)
        /\ (forall id', id' ≠ id -> users w' !! id' = users w !! id'))
  /\ (forall body,
        Directory.body_profile body = None ->
        Directory.body_profile_image body = None ->
        Directory.body_cover body = None ->
        Directory.body_cover_image body = None ->
        let w' := (Directory.UserController.updateUser rt id body w).2 in
        cloud w' = cloud w
        /\ exists u', users w' !! id = Some u'
                      /\ profile_image u' = profile_image u
                      /\ cover_image u' = cover_image u).
Proof.
  intros Hu.
  assert (Hdir : forall body,
     let w' := (Directory.UserController.updateUser rt id body w).2 in
     (exists u', users w' !! id = Some u'
                 /\ forall p, body_names body p = false ->
                              Model.get p u' = Model.get p u)
     /\ (forall id', id' ≠ id -> users w' !! id' = users w !! id')).
  { intros body w'.
    destruct (Directory_updateUser_store rt id body w u Hu) as (updates & Hst & Hn).
    destruct (store_frame (users w) (users w') id u updates Hu Hst)
      as ((u' & Hu' & Hframe) & Hother).
    split; [|done]. exists u'. split; [done|].
    intros p Hp. apply Hframe. specialize (Hn p).
    destruct (Model.names updates p); [|done]. rewrite Hn in Hp; done. }
  split; [exact Hdir|]. split.
  - intros req Hauth w'.
    destruct (Core_updateUserId_store rt req w id u Hauth Hu) as (d & Hst & Hn).
    destruct (store_frame (users w) (users w') id u _ Hu Hst)
      as ((u' & Hu' & Hframe) & Hother).
    split; [|done]. exists u'. split; [done|].
    intros p Hp. apply Hframe. specialize (Hn p).
    destruct (Model.names (Core.schema_update d) p); [|done]. rewrite Hn in Hp; done.
  - intros body H1 H2 H3 H4 w'. split.
    + subst w'. unfold Directory.UserController.updateUser,
        Directory.UserService.getUserById, Directory.UserService.updateUser,
        Model.findByIdAndUpdate, Model.findByIdAndModify, Model.findById.
      run. rewrite H1, H2, H3, H4. simpl.
      destruct (ObjectId_isValid rt id); simpl; [|done].
      rewrite Hu. simpl. by rewrite Hu.
    + destruct (Hdir body) as ((u' & Hu' & Hframe) & _). exists u'.
      split; [done|].
      assert (Hp := Hframe Model.path_profile_image).
      assert (Hc := Hframe Model.path_cover_image).
      unfold body_names in Hp, Hc. rewrite H1, H2 in Hp. rewrite H3, H4 in Hc.
      simpl in Hp, Hc. split; [specialize (Hp eq_refl)|specialize (Hc eq_refl)];
        congruence.
Qed.

Lemma update_frame_witness :
  (forall body,
     let w' := (Directory.UserController.updateUser Sample.runtime Sample.alice_id
                  body Sample.world).2 in
     (exists u', users w' !! Sample.alice_id = Some u'
                 /\ forall p, body_names body p = false ->
                              Model.get p u' = Model.get p Sample.alice)
     /\ (forall id', id' ≠ Sample.alice_id ->
           users w' !! id' = users Sample.world !! id'))
  /\ (forall req,
        Core.BaseController.validateAuthentication req = Some Sample.alice_id ->
        let w' := (Core.UserController.updateUserId Sample.runtime req
                     Sample.world).2 in
        (exists u', users w' !! Sample.alice_id = Some u'
                    /\ forall p, request_names req p = false ->
                                 Model.get p u' = Model.get p Sample.alice)
        /\ (forall id', id' ≠ Sample.alice_id ->
              users w' !! id' = users Sample.world !! id'))
  /\ (forall body,
        Directory.body_profile body = None ->
        Directory.body_profile_image body = None ->
        Directory.body_cover body = None ->
        Directory.body_cover_image body = None ->
        let w' := (Directory.UserController.updateUser Sample.runtime
                     Sample.alice_id body Sample.world).2 in
        cloud w' = cloud Sample.world
        /\ exists u', users w' !! Sample.alice_id = Some u'
                      /\ profile_image u' = profile_image Sample.alice
                      /\ cover_image u' = cover_image Sample.alice).
Proof.
  apply (update_frame Sample.runtime Sample.world Sample.alice_id Sample.alice).
  reflexivity.
Defined.


(** The update of the example on both hosts.  When the host accepts the
    upload, the stored image is destroyed, the new one uploaded and its
    URL stored with the new bio.  When the host rejects it, the update
    throws and the store is unchanged, yet the old image has already been
    destroyed. *)
Lemma updateUser_example :
  let call := UploadStream profiles (jpeg_file "aGVsbG8=") in
  Directory.UserController.updateUser Sample.runtime Sample.alice_id
    Sample.new_profile Sample.world
  = (let u' := Model.apply_update
                 (Model.with_profile_image
                    "https://res.cloudinary.com/demo/image/upload/v1/new1"
                    (Directory.rest Sample.new_profile)) Sample.alice in
     (Return (mkDocument Sample.alice_id u'),
      mkWorld (<[Sample.alice_id := u']> (users Sample.world))
              [Destroy "profiles/old"; call]))
  /\ Directory.UserController.updateUser Sample.rejecting Sample.alice_id
       Sample.new_profile Sample.world
     = (Throw (ErrorObj "upstream unavailable"),
        mkWorld (users Sample.world) [Destroy "profiles/old"; call]).
Proof. split; vm_compute; reflexivity. Qed.

(** ** The route-mounted relationship operations on the example store

    They report success where the guarded service raises an error:
    unfollowing a user who is not followed, and following the same user
    twice, which leaves a single edge. *)
Lemma Directory_relationships_example :
  Directory.UserController.unfollowUser Sample.runtime Sample.alice_id Sample.bob_id
    Sample.world
  = (Return "Unfollowed user successfully", Sample.world)
  /\ exists w1,
       Directory.UserController.followUser Sample.runtime Sample.alice_id
         Sample.bob_id Sample.world
       = (Return "Followed user successfully", w1)
       /\ Directory.UserController.followUser Sample.runtime Sample.alice_id
            Sample.bob_id w1
          = (Return "Followed user successfully", w1)
       /\ followers <$> users w1 !! Sample.bob_id = Some [Sample.alice_id].
Proof.
  split; [vm_compute; reflexivity|].
  eexists. split; [vm_compute; reflexivity|].
  split; vm_compute; reflexivity.
Qed.

(** * Further properties *)

(** ** Splitting and joining *)

Lemma split_not_nil c s : Js.split c s ≠ [].
Proof.
  destruct s as [|a s]; simpl; [done|].
  destruct (Ascii.eqb a c); [done|]. by destruct (Js.split c s).
Qed.

Lemma split_app c a b :
  Js.split c (a ++ String c b) = (Js.split c a ++ Js.split c b)%list.
Proof.
  induction a as [|x a IH]; simpl.
  - by rewrite Ascii.eqb_refl.
  - destruct (Ascii.eqb x c); [by rewrite IH|].
    rewrite IH. pose proof (split_not_nil c a) as Hne.
    by destruct (Js.split c a).
Qed.

Lemma split_no_char c s : no_char c s = true -> Js.split c s = [s].
Proof.
  induction s as [|a s IH]; simpl; [done|].
  intros [Ha Hs]%andb_true_iff. apply negb_true_iff in Ha. rewrite Ha.
  by rewrite IH.
Qed.

Lemma join_split c s : Js.join (String c "") (Js.split c s) = s.
Proof.
  induction s as [|a s IH]; simpl; [done|].
  destruct (Ascii.eqb a c) eqn:Hac.
  - apply Ascii.eqb_eq in Hac. subst a.
    pose proof (split_not_nil c s) as Hne.
    destruct (Js.split c s) as [|y l] eqn:Hl; [done|]. simpl in *. by rewrite IH.
  - pose proof (split_not_nil c s) as Hne.
    destruct (Js.split c s) as [|y l] eqn:Hl; [done|].
    destruct l; simpl in *; by rewrite <- IH.
Qed.

Lemma findIndex_None x l : Js.findIndex x l = None <-> x ∉ l.
Proof.
  induction l as [|y l IH]; simpl.
  - split; [intros _; apply not_elem_of_nil | done].
  - destruct (String.eqb y x) eqn:Hyx.
    + apply String.eqb_eq in Hyx. subst y. split; [done|].
      intros H. destruct H. by left.
    + apply String.eqb_neq in Hyx. rewrite not_elem_of_cons.
      destruct (Js.findIndex x l); simpl; split; try done.
      * intros [_ H]. by apply IH in H.
      * intros _. split; [congruence | by apply IH].
Qed.

Lemma findIndex_first x l1 l2 :
  x ∉ l1 -> Js.findIndex x (l1 ++ x :: l2) = Some (length l1).
Proof.
  induction l1 as [|y l1 IH]; simpl; intros Hx.
  - by rewrite String.eqb_refl.
  - apply not_elem_of_cons in Hx as [Hne Hx].
    assert (String.eqb y x = false) as -> by (apply String.eqb_neq; congruence).
    by rewrite IH.
Qed.

Lemma str_includes_char c s :
  Js.str_includes (String c "") s = negb (no_char c s).
Proof.
  induction s as [|a s IH]; simpl; [done|].
  rewrite IH. rewrite (Ascii.eqb_sym c a).
  destruct (Ascii.eqb a c); simpl; [done|]. by destruct s.
Qed.

Lemma match_extension_no_dot s :
  no_char "." s = true -> Cloudinary.match_extension s = None.
Proof.
  induction s as [|a s IH]; simpl; [done|].
  intros [Ha Hs]%andb_true_iff. rewrite (IH Hs).
  apply negb_true_iff in Ha. by rewrite Ha.
Qed.

Lemma match_extension_suffix pid ext :
  ext ≠ "" -> no_char "/" ext = true -> no_char "." ext = true ->
  Cloudinary.match_extension (pid ++ String "." ext) = Some pid.
Proof.
  intros Hne Hslash Hdot. induction pid as [|a pid IH]; simpl.
  - rewrite (match_extension_no_dot ext Hdot).
    rewrite !str_includes_char, Hslash, Hdot. simpl.
    destruct ext; [done|]. reflexivity.
  - by rewrite IH.
Qed.

(** ** Public identifiers of hosted images *)

(** What follows the segment after [upload], without its extension. *)
Lemma extractPublicId_segments prefix version rest :
  "upload" ∉ Js.split "/" prefix ->
  no_char "/" version = true ->
  Cloudinary.extractPublicId (prefix ++ "/upload/" ++ version ++ "/" ++ rest)
  = Some (Cloudinary.remove_extension rest).
Proof.
  intros Hprefix Hversion. unfold Cloudinary.extractPublicId.
  change (prefix ++ "/upload/" ++ version ++ "/" ++ rest)
    with (prefix ++ String "/" ("upload" ++ String "/" (version ++ String "/" rest))).
  rewrite split_app, (split_app "/" "upload"), (split_app "/" version).
  rewrite (split_no_char "/" version Hversion).
  change (Js.split "/" "upload") with ["upload"]. simpl.
  rewrite (findIndex_first "upload" (Js.split "/" prefix)) by done.
  rewrite drop_app_ge by lia.
  replace (length (Js.split "/" prefix) + 2 - length (Js.split "/" prefix))
    with 2 by lia.
  cbn [drop]. by rewrite drop_0, join_split.
Qed.

(** X1.  For a URL made of a prefix with no [upload] segment, the
    segment [upload], a version segment, and then a public id followed by
    a dot and an extension, [extractPublicId] gives back the public id,
    slashes and dots inside it included. *)
Theorem extractPublicId_hosted prefix version pid ext :
  "upload" ∉ Js.split "/" prefix ->
  no_char "/" version = true ->
  ext ≠ "" -> no_char "/" ext = true -> no_char "." ext = true ->
  Cloudinary.extractPublicId
    (prefix ++ "/upload/" ++ version ++ "/" ++ pid ++ "." ++ ext)
  = Some pid.
Proof.
  intros Hprefix Hversion Hne Hslash Hdot.
  rewrite extractPublicId_segments by done.
  unfold Cloudinary.remove_extension.
  change (pid ++ "." ++ ext) with (pid ++ String "." ext).
  by rewrite match_extension_suffix.
Qed.

Lemma extractPublicId_hosted_witness :
  Cloudinary.extractPublicId
    ("https://res.cloudinary.com/demo/image" ++ "/upload/" ++ "v1718" ++ "/"
     ++ "user-uploads/profiles/profiles/1718-k3.x" ++ "." ++ "webp")
  = Some "user-uploads/profiles/profiles/1718-k3.x".
Proof.
  apply (extractPublicId_hosted "https://res.cloudinary.com/demo/image" "v1718"
           "user-uploads/profiles/profiles/1718-k3.x" "webp");
    [ apply findIndex_None; reflexivity
    | reflexivity | discriminate | reflexivity | reflexivity ].
Defined.

(** X2.  [deleteImage] asks the host to destroy exactly the public id
    of such a URL, whatever the host answers; for a URL with no [upload]
    segment it returns without calling the host. *)
Theorem deleteImage_calls rt w :
  (forall prefix version pid ext,
     "upload" ∉ Js.split "/" prefix ->
     no_char "/" version = true ->
     ext ≠ "" -> no_char "/" ext = true -> no_char "." ext = true ->
     pid ≠ "" ->
     Cloudinary.deleteImage rt
       (prefix ++ "/upload/" ++ version ++ "/" ++ pid ++ "." ++ ext) w
     = (Return tt, mkWorld (users w) (cloud w ++ [Destroy pid])))
  /\ (forall imageUrl,
        "upload" ∉ Js.split "/" imageUrl ->
        Cloudinary.deleteImage rt imageUrl w = (Return tt, w)).
Proof.
  split.
  - intros prefix version pid ext H1 H2 H3 H4 H5 Hpid.
    rewrite deleteImage_run. unfold deletion_calls.
    rewrite extractPublicId_segments by done. unfold Cloudinary.remove_extension.
    change (pid ++ "." ++ ext) with (pid ++ String "." ext).
    rewrite match_extension_suffix by done. by destruct pid.
  - intros imageUrl Hno. rewrite deleteImage_run. unfold deletion_calls,
      Cloudinary.extractPublicId.
    apply findIndex_None in Hno. rewrite Hno. rewrite app_nil_r. by destruct w.
Qed.

Lemma deleteImage_calls_witness :
  Cloudinary.deleteImage Sample.runtime
    ("https://res.cloudinary.com/demo/image" ++ "/upload/" ++ "v1" ++ "/"
     ++ "profiles/old" ++ "." ++ "webp") Sample.world
  = (Return tt, mkWorld (users Sample.world)
                  (cloud Sample.world ++ [Destroy "profiles/old"]))
  /\ Cloudinary.deleteImage Sample.runtime "https://example.org/avatar.png"
       Sample.world
     = (Return tt, Sample.world).
Proof.
  destruct (deleteImage_calls Sample.runtime Sample.world) as [Hhosted Hforeign].
  split.
  - apply (Hhosted "https://res.cloudinary.com/demo/image" "v1" "profiles/old" "webp");
      [ apply findIndex_None; reflexivity
      | reflexivity | discriminate | reflexivity | reflexivity | discriminate ].
  - apply Hforeign. apply findIndex_None. reflexivity.
Defined.

(** ** The guarded controller without an identity *)

Lemma unauthenticated_None req :
  unauthenticated req -> Core.BaseController.validateAuthentication req = None.
Proof.
  unfold Core.BaseController.validateAuthentication. by intros [-> | ->].
Qed.

(** X3.  A request that carries no identity, or an empty one, is
    answered 401 'Unauthorized' by each of the five guarded handlers, and
    neither the store nor the image host is touched. *)
Theorem guarded_handlers_unauthorized rt req w :
  unauthenticated req ->
  let denied := (Return (mkResponse 401 (Message "Unauthorized")), w) in
  Core.UserController.getUserId rt req w = denied
  /\ Core.UserController.updateUserId rt req w = denied
  /\ Core.UserController.searchUsers rt req w = denied
  /\ Core.UserController.followUser rt req w = denied
  /\ Core.UserController.unfollowUser rt req w = denied.
Proof.
  intros Hno%unauthenticated_None. simpl.
  unfold Core.UserController.getUserId, Core.UserController.updateUserId,
    Core.UserController.searchUsers, Core.UserController.followUser,
    Core.UserController.unfollowUser. run. by rewrite Hno.
Qed.

Lemma guarded_handlers_unauthorized_witness :
  let req := Core.mkRequest (Some "") (Some "mallory") None None None (Some "a")
               Sample.alice_id Sample.alice_id None None in
  let denied := (Return (mkResponse 401 (Message "Unauthorized")), Sample.world) in
  Core.UserController.getUserId Sample.runtime req Sample.world = denied
  /\ Core.UserController.updateUserId Sample.runtime req Sample.world = denied
  /\ Core.UserController.searchUsers Sample.runtime req Sample.world = denied
  /\ Core.UserController.followUser Sample.runtime req Sample.world = denied
  /\ Core.UserController.unfollowUser Sample.runtime req Sample.world = denied.
Proof.
  apply (guarded_handlers_unauthorized Sample.runtime _ Sample.world).
  right. reflexivity.
Defined.

(** ** What the guarded handlers answer *)

Ltac branches :=
  repeat (simpl;
    match goal with
    | |- context [match ?x with _ => _ end] =>
        lazymatch x with
        | context [match _ with _ => _ end] => fail
        | _ => destruct x eqn:?
        end
    end).

Ltac safe_leaf :=
  eexists _, _; split; [reflexivity|]; simpl;
  let obj := fresh "obj" in let Hobj := fresh "Hobj" in intros obj Hobj;
  repeat match goal with
  | H : _ ∈ [] |- _ => by apply elem_of_nil in H
  | H : _ ∈ [_] |- _ => apply list_elem_of_singleton in H; subst
  | H : _ ∈ _ <$> _ |- _ => apply list_elem_of_fmap in H as (? & -> & _)
  end;
  try apply without_password_password.

(** X4.  Each of the five guarded handlers always answers (every
    exception is caught and turned into a response), and no user object
    in any of its payloads has a [password] key. *)
Theorem guarded_handlers_answer_safely rt req w :
  answers_safely (Core.UserController.getUserId rt req w)
  /\ answers_safely (Core.UserController.updateUserId rt req w)
  /\ answers_safely (Core.UserController.searchUsers rt req w)
  /\ answers_safely (Core.UserController.followUser rt req w)
  /\ answers_safely (Core.UserController.unfollowUser rt req w).
Proof.
  split; [|split; [|split; [|split]]].
  - unfold Core.UserController.getUserId, Core.UserService.findUserById,
      Model.findById. run. branches; safe_leaf.
  - unfold Core.UserController.updateUserId, Core.UserService.findUserById,
      Core.UserService.findUserByUsername, Core.UserService.updateUser,
      Model.findById, Model.findOne, Model.find, Model.findByIdAndUpdate,
      Model.findByIdAndModify. run. branches; safe_leaf.
  - unfold Core.UserController.searchUsers, Core.UserService.searchUsers,
      Model.find. run. branches; safe_leaf.
  - unfold Core.UserController.followUser. run.
    destruct (Core.BaseController.validateAuthentication req); [|safe_leaf].
    destruct (String.eqb _ _); [safe_leaf|].
    destruct (Core.UserService.addFollowing _ _ _ _) as [[[]|e] w1]; simpl;
      [safe_leaf|]. destruct (_ && _)%bool; safe_leaf.
  - unfold Core.UserController.unfollowUser. run.
    destruct (Core.BaseController.validateAuthentication req); [|safe_leaf].
    destruct (String.eqb _ _); [safe_leaf|].
    destruct (Core.UserService.removeFollowing _ _ _ _) as [[[]|e] w1]; simpl;
      [safe_leaf|]. destruct (_ && _)%bool; safe_leaf.
Qed.

(** ** The guarded follow and unfollow, request by request *)

(** [addFollowing] either throws and leaves the world as it was, or
    stores the edge. *)
Lemma addFollowing_cases rt A B w :
  (exists e, Core.UserService.addFollowing rt A B w = (Throw e, w))
  \/ (exists uA uB,
        users w !! A = Some uA /\ users w !! B = Some uB
        /\ ObjectId_isValid rt A = true /\ ObjectId_isValid rt B = true
        /\ (B ∉ following uA)
        /\ Core.UserService.addFollowing rt A B w
           = (Return tt, mkWorld (followed A B uA uB (users w)) (cloud w))).
Proof.
  destruct (ObjectId_isValid rt A) eqn:HA.
  2:{ left. eexists. unfold Core.UserService.addFollowing,
        Core.UserService.findUserById. run. by rewrite HA. }
  destruct (users w !! A) as [uA|] eqn:HuA.
  2:{ left. eexists. unfold Core.UserService.addFollowing. run.
      rewrite findUserById_run by done. by rewrite HuA. }
  destruct (ObjectId_isValid rt B) eqn:HB.
  2:{ left. eexists. unfold Core.UserService.addFollowing. run.
      rewrite findUserById_run by done. rewrite HuA. simpl.
      unfold Core.UserService.findUserById. by rewrite HB. }
  destruct (users w !! B) as [uB|] eqn:HuB.
  2:{ left. eexists. unfold Core.UserService.addFollowing. run.
      rewrite findUserById_run by done. rewrite HuA. simpl.
      rewrite findUserById_run by done. by rewrite HuB. }
  destruct (decide (B ∈ following uA)) as [Hin|Hnew].
  - left. eexists. by eapply addFollowing_again.
  - right. exists uA, uB. repeat split; try done. by apply addFollowing_new.
Qed.




Lemma not_elem_of_filter_self (x : string) (l : list string) :
  x ∉ filter (fun y => y ≠ x) l.
Proof. intros [H _]%list_elem_of_filter. by apply H. Qed.



(** The three outcomes on the example store: Alice unfollows Bob, whom
    she follows; Carol, whom she does not; and the malformed identifier
    in her list, which is removed although the answer is 500. *)
Lemma unfollowUser_example :
  let final l := mkWorld (<[Sample.alice_id := set_following l Scene.alice]>
                            (users Scene.world)) [] in
  Core.UserController.unfollowUser Sample.runtime (Scene.naming Sample.bob_id)
    Scene.world
  = (Return (mkResponse 200 (Message "You have unfollowed this user")),
     mkWorld (<[Sample.alice_id := set_following ["not-an-id"] Scene.alice]>
                (<[Sample.bob_id := Sample.bob]> ∅)) [])
  /\ Core.UserController.unfollowUser Sample.runtime (Scene.naming Scene.carol_id)
       Scene.world
     = (Return (mkResponse 400 (Message "You are not following this user")),
        Scene.world)
  /\ Core.UserController.unfollowUser Sample.runtime (Scene.naming "not-an-id")
       Scene.world
     = (Return (mkResponse 500
                  (ServerError "Error in unfollowUser" "Invalid user ID format")),
        final [Sample.bob_id]).
Proof. repeat split; vm_compute; reflexivity. Qed.

(** ** Relation lists without duplicates *)











(** ** The route-mounted operations as functions of the collection *)

Lemma insert_alter (m : gmap string User) id u f :
  m !! id = Some u -> <[id := f u]> m = alter f id m.
Proof.
  intros Hu. apply map_eq. intros i. rewrite lookup_insert, lookup_alter.
  case_decide; [subst; by rewrite Hu | done].
Qed.

Lemma alter_missing (m : gmap string User) id f : m !! id = None -> alter f id m = m.
Proof.
  intros Hu. apply map_eq. intros i. rewrite lookup_alter.
  case_decide; [subst; by rewrite Hu | done].
Qed.

Lemma findByIdAndModify_store rt id f w :
  ObjectId_isValid rt id = true ->
  Model.findByIdAndModify rt id f w
  = (Return ((fun u => mkDocument id (f u)) <$> users w !! id),
     mkWorld (alter f id (users w)) (cloud w)).
Proof.
  intros Hid. unfold Model.findByIdAndModify. run. rewrite Hid.
  destruct (users w !! id) as [u|] eqn:Hu; simpl.
  - by rewrite (insert_alter _ _ u).
  - rewrite alter_missing by done. by destruct w.
Qed.

Lemma findByIdAndModify_cast rt id f w :
  ObjectId_isValid rt id = false ->
  Model.findByIdAndModify rt id f w = (Throw (CastError id), w).
Proof. intros Hid. unfold Model.findByIdAndModify. run. by rewrite Hid. Qed.

(** Two writes in a row, by the validity of the two identifiers. *)
Lemma modify_twice_run rt A B f g w :
  (Model.findByIdAndModify rt A f;; Model.findByIdAndModify rt B g;; mret tt) w
  = if ObjectId_isValid rt A then
      if ObjectId_isValid rt B then
        (Return tt, mkWorld (alter g B (alter f A (users w))) (cloud w))
      else (Throw (CastError B), mkWorld (alter f A (users w)) (cloud w))
    else (Throw (CastError A), w).
Proof.
  unfold mbind, Async_bind, bind, mret, Async_ret, ret.
  destruct (ObjectId_isValid rt A) eqn:HA.
  - rewrite findByIdAndModify_store by done.
    destruct (ObjectId_isValid rt B) eqn:HB.
    + by rewrite findByIdAndModify_store by done.
    + by rewrite findByIdAndModify_cast by done.
  - by rewrite findByIdAndModify_cast by done.
Qed.

Lemma elem_of_addToSet (x y : string) (l : list string) :
  y ∈ Model.addToSet x l <-> y ∈ l \/ y = x.
Proof.
  unfold Model.addToSet. destruct (Js.includes x l) eqn:Hin.
  - apply includes_true in Hin. split; [by left|]. by intros [?| ->].
  - rewrite elem_of_app, list_elem_of_singleton. done.
Qed.


Lemma addToSet_idem x l : Model.addToSet x (Model.addToSet x l) = Model.addToSet x l.
Proof.
  unfold Model.addToSet at 1.
  assert (Js.includes x (Model.addToSet x l) = true) as ->; [|done].
  apply includes_true, elem_of_addToSet. by right.
Qed.

Lemma pull_idem x l : Model.pull x (Model.pull x l) = Model.pull x l.
Proof.
  unfold Model.pull. apply filter_ne_absent. apply not_elem_of_filter_self.
Qed.


Lemma Directory_followUser_run rt A B w :
  Directory.UserService.followUser rt A B w
  = if ObjectId_isValid rt A then
      if ObjectId_isValid rt B then
        (Return tt, mkWorld (follow_store A B (users w)) (cloud w))
      else (Throw (CastError B),
            mkWorld (on_following (Model.addToSet B) A (users w)) (cloud w))
    else (Throw (CastError A), w).
Proof. apply modify_twice_run. Qed.

Lemma Directory_unfollowUser_run rt A B w :
  Directory.UserService.unfollowUser rt A B w
  = if ObjectId_isValid rt A then
      if ObjectId_isValid rt B then
        (Return tt, mkWorld (unfollow_store A B (users w)) (cloud w))
      else (Throw (CastError B),
            mkWorld (on_following (Model.pull B) A (users w)) (cloud w))
    else (Throw (CastError A), w).
Proof. apply modify_twice_run. Qed.

Lemma Directory_connectUsers_run rt A B w :
  Directory.UserService.connectUsers rt A B w
  = if ObjectId_isValid rt A then
      if ObjectId_isValid rt B then
        (Return tt, mkWorld (connect_store A B (users w)) (cloud w))
      else (Throw (CastError B),
            mkWorld (on_connections (Model.addToSet B) A (users w)) (cloud w))
    else (Throw (CastError A), w).
Proof. apply modify_twice_run. Qed.

Lemma set_followers_same u : set_followers (followers u) u = u.
Proof. by destruct u. Qed.

(** The store a successful guarded follow leaves. *)
Lemma followed_follow_store A B uA uB m :
  m !! A = Some uA -> m !! B = Some uB -> B ∉ following uA ->
  followed A B uA uB m = follow_store A B m.
Proof.
  intros HuA HuB Hnew. unfold followed, follow_store, on_followers, on_following.
  assert (Hfirst : alter (set_following (following uA ++ [B])) A m
                   = alter (fun u => set_following
                                       (Model.addToSet B (following u)) u) A m).
  { apply alter_ext. intros x Hx. assert (x = uA) as -> by congruence.
    unfold Model.addToSet. apply includes_false in Hnew. by rewrite Hnew. }
  rewrite Hfirst. clear Hfirst.
  set (m1 := alter _ A m).
  assert (HB1 : forall x, m1 !! B = Some x -> followers x = followers uB).
  { intros x. unfold m1. rewrite lookup_alter. case_decide as HAB.
    - subst B. rewrite HuA. simpl. intros [= <-]. simpl. congruence.
    - rewrite HuB. by intros [= <-]. }
  destruct (Js.includes A (followers uB)) eqn:Hin.
  - symmetry. apply alter_id. intros x Hx. unfold Model.addToSet.
    rewrite (HB1 x Hx), Hin, <- (HB1 x Hx). apply set_followers_same.
  - apply alter_ext. intros x Hx. unfold Model.addToSet.
    by rewrite (HB1 x Hx), Hin.
Qed.

(** The guarded unfollow, once the requester is found to follow B. *)
Lemma removeFollowing_store rt A B w uA :
  ObjectId_isValid rt A = true -> users w !! A = Some uA -> B ∈ following uA ->
  Core.UserService.removeFollowing rt A B w
  = if ObjectId_isValid rt B then
      (Return tt, mkWorld (unfollow_store A B (users w)) (cloud w))
    else (Throw (ErrorObj "Invalid user ID format"),
          mkWorld (on_following (Model.pull B) A (users w)) (cloud w)).
Proof.
  intros HA HuA Hin. apply includes_true in Hin.
  unfold Core.UserService.removeFollowing. run.
  rewrite findUserById_run by done. rewrite HuA. simpl. rewrite Hin. simpl.
  assert (Hfirst : alter (set_following
                            (filter (fun id => id ≠ B) (following uA))) A (users w)
                   = on_following (Model.pull B) A (users w)).
  { apply alter_ext. intros x Hx. by assert (x = uA) as -> by congruence. }
  rewrite Hfirst. clear Hfirst.
  destruct (ObjectId_isValid rt B) eqn:HB.
  2:{ unfold Core.UserService.findUserById. by rewrite HB. }
  rewrite findUserById_run by done. simpl.
  unfold unfollow_store, on_followers.
  set (m1 := on_following (Model.pull B) A (users w)).
  destruct (m1 !! B) as [uB|] eqn:HuB; simpl.
  - destruct (Js.includes A (followers uB)) eqn:HinA; simpl.
    + unfold save_path. simpl. f_equal. f_equal. apply alter_ext. intros x Hx.
      by assert (x = uB) as -> by congruence.
    + f_equal. f_equal. symmetry. apply alter_id. intros x Hx.
      assert (x = uB) as -> by congruence.
      unfold Model.pull. rewrite filter_ne_absent by (by apply includes_false).
      apply set_followers_same.
  - by rewrite alter_missing.
Qed.

Lemma removeFollowing_cases rt A B w :
  (exists e, Core.UserService.removeFollowing rt A B w = (Throw e, w))
  \/ (exists uA, ObjectId_isValid rt A = true /\ users w !! A = Some uA
                 /\ B ∈ following uA).
Proof.
  destruct (ObjectId_isValid rt A) eqn:HA.
  2:{ left. eexists. unfold Core.UserService.removeFollowing,
        Core.UserService.findUserById. run. by rewrite HA. }
  destruct (users w !! A) as [uA|] eqn:HuA.
  2:{ left. eexists. unfold Core.UserService.removeFollowing. run.
      rewrite findUserById_run by done. by rewrite HuA. }
  destruct (decide (B ∈ following uA)) as [Hin|Hnot]; [right; eauto|].
  left. eexists. apply includes_false in Hnot.
  unfold Core.UserService.removeFollowing. run.
  rewrite findUserById_run by done. rewrite HuA. simpl. by rewrite Hnot.
Qed.

(** X9.  Whenever the guarded service succeeds, the route-mounted
    service called with the same arguments on the same world succeeds
    too and leaves the same world: [addFollowing] against [followUser],
    [removeFollowing] against [unfollowUser]. *)
Theorem guarded_success_is_route_mounted rt A B w w' :
  (Core.UserService.addFollowing rt A B w = (Return tt, w') ->
   Directory.UserService.followUser rt A B w = (Return tt, w'))
  /\ (Core.UserService.removeFollowing rt A B w = (Return tt, w') ->
      Directory.UserService.unfollowUser rt A B w = (Return tt, w')).
Proof.
  split.
  - intros Hrun.
    destruct (addFollowing_cases rt A B w)
      as [(e & He)|(uA & uB & HuA & HuB & HA & HB & Hnew & Hok)]; [congruence|].
    rewrite Directory_followUser_run, HA, HB.
    rewrite Hok in Hrun. injection Hrun as <-.
    by rewrite followed_follow_store.
  - intros Hrun.
    destruct (removeFollowing_cases rt A B w) as [(e & He)|(uA & HA & HuA & Hin)];
      [congruence|].
    rewrite (removeFollowing_store rt A B w uA) in Hrun by done.
    rewrite Directory_unfollowUser_run, HA.
    destruct (ObjectId_isValid rt B); [done | discriminate].
Qed.

Lemma guarded_success_is_route_mounted_witness :
  exists w1,
    Core.UserService.addFollowing Sample.runtime Sample.alice_id Sample.bob_id
      Sample.world = (Return tt, w1)
    /\ Directory.UserService.followUser Sample.runtime Sample.alice_id Sample.bob_id
         Sample.world = (Return tt, w1)
    /\ Core.UserService.removeFollowing Sample.runtime Sample.alice_id Sample.bob_id
         w1 = (Return tt, Sample.world)
    /\ Directory.UserService.unfollowUser Sample.runtime Sample.alice_id
         Sample.bob_id w1 = (Return tt, Sample.world).
Proof.
  eexists. split; [vm_compute; reflexivity|].
  split.
  { apply (guarded_success_is_route_mounted Sample.runtime Sample.alice_id
             Sample.bob_id Sample.world). vm_compute. reflexivity. }
  split; [vm_compute; reflexivity|].
  match goal with |- _ _ _ _ ?w1 = _ =>
    apply (guarded_success_is_route_mounted Sample.runtime Sample.alice_id
             Sample.bob_id w1 Sample.world) end.
  vm_compute. reflexivity.
Defined.

(** ** Following and followers mirror each other *)
















(** The store of [Scene] satisfies the three invariants. *)
Lemma two_users (P : string -> User -> Prop) a ua b ub :
  P a ua -> P b ub ->
  forall id u,
    (<[a := ua]> (<[b := ub]> ∅) : gmap string User) !! id = Some u -> P id u.
Proof.
  intros Ha Hb id u. rewrite lookup_insert. case_decide; [by intros [= <-]; subst|].
  rewrite lookup_insert. case_decide; [by intros [= <-]; subst|].
  by rewrite lookup_empty.
Qed.






(** ** The route-mounted operations: repeating, undoing, swapping *)

Ltac store_eq :=
  apply map_eq; intros ?X;
  unfold follow_store, unfollow_store, connect_store,
    on_followers, on_following, on_connections;
  rewrite !lookup_alter; repeat case_decide; subst; try done.

Lemma relation_store_idem f g A B (m : gmap string User) :
  (forall l, f (f l) = f l) -> (forall l, g (g l) = g l) ->
  on_followers g B (on_following f A (on_followers g B (on_following f A m)))
  = on_followers g B (on_following f A m).
Proof.
  intros Hf Hg. store_eq; destruct (m !! X) as [[]|]; simpl; try done;
    unfold set_followers, set_following; simpl; by rewrite ?Hf, ?Hg.
Qed.

Lemma on_following_idem f A (m : gmap string User) :
  (forall l, f (f l) = f l) ->
  on_following f A (on_following f A m) = on_following f A m.
Proof.
  intros Hf. store_eq; destruct (m !! X) as [[]|]; simpl; try done;
    unfold set_following; simpl; by rewrite ?Hf.
Qed.

Lemma connect_store_idem A B (m : gmap string User) :
  connect_store A B (connect_store A B m) = connect_store A B m.
Proof.
  store_eq; destruct (m !! X) as [[]|]; simpl; try done;
    unfold set_connections; simpl; by rewrite ?addToSet_idem.
Qed.

Lemma on_connections_idem f A (m : gmap string User) :
  (forall l, f (f l) = f l) ->
  on_connections f A (on_connections f A m) = on_connections f A m.
Proof.
  intros Hf. store_eq; destruct (m !! X) as [[]|]; simpl; try done;
    unfold set_connections; simpl; by rewrite ?Hf.
Qed.



(** X11.  Each route-mounted relationship handler can be repeated: run
    again on the world it left, with the same arguments, it ends the same
    way and leaves that world as it is.  This holds for every pair of
    arguments, also when the operation fails. *)
Theorem Directory_relationships_idempotent rt A B w :
  (let r := Directory.UserController.followUser rt A B w in
   Directory.UserController.followUser rt A B r.2 = r)
  /\ (let r := Directory.UserController.unfollowUser rt A B w in
      Directory.UserController.unfollowUser rt A B r.2 = r)
  /\ (let r := Directory.UserController.connectUsers rt A B w in
      Directory.UserController.connectUsers rt A B r.2 = r).
Proof.
  split; [|split]; simpl.
  - unfold Directory.UserController.followUser. run.
    rewrite (Directory_followUser_run rt A B w).
    destruct (ObjectId_isValid rt A) eqn:HA, (ObjectId_isValid rt B) eqn:HB; simpl;
      rewrite Directory_followUser_run, HA, ?HB; simpl; try done.
    + unfold follow_store.
      by rewrite (relation_store_idem _ _ A B)
        by (intros; apply addToSet_idem).
    + by rewrite on_following_idem by (intros; apply addToSet_idem).
  - unfold Directory.UserController.unfollowUser. run.
    rewrite (Directory_unfollowUser_run rt A B w).
    destruct (ObjectId_isValid rt A) eqn:HA, (ObjectId_isValid rt B) eqn:HB; simpl;
      rewrite Directory_unfollowUser_run, HA, ?HB; simpl; try done.
    + unfold unfollow_store.
      by rewrite (relation_store_idem _ _ A B) by (intros; apply pull_idem).
    + by rewrite on_following_idem by (intros; apply pull_idem).
  - unfold Directory.UserController.connectUsers. run.
    rewrite (Directory_connectUsers_run rt A B w).
    destruct (ObjectId_isValid rt A) eqn:HA, (ObjectId_isValid rt B) eqn:HB; simpl;
      rewrite Directory_connectUsers_run, HA, ?HB; simpl; try done.
    + by rewrite connect_store_idem.
    + by rewrite on_connections_idem by (intros; apply addToSet_idem).
Qed.





(** X14.  The route-mounted follow, unfollow and connect are two
    separate writes and the first is kept when the second is refused:
    with a user identifier the ODM accepts and a target identifier it
    rejects, the handler throws the cast error for the target, and the
    user's own list has already been changed; nothing else has. *)
Theorem Directory_relationships_half_done rt A B w uA :
  ObjectId_isValid rt A = true -> ObjectId_isValid rt B = false ->
  users w !! A = Some uA ->
  Directory.UserController.followUser rt A B w
  = (Throw (CastError B),
     mkWorld (<[A := set_following (Model.addToSet B (following uA)) uA]> (users w))
             (cloud w))
  /\ Directory.UserController.unfollowUser rt A B w
     = (Throw (CastError B),
        mkWorld (<[A := set_following (Model.pull B (following uA)) uA]> (users w))
                (cloud w))
  /\ Directory.UserController.connectUsers rt A B w
     = (Throw (CastError B),
        mkWorld (<[A := set_connections (Model.addToSet B (connections uA)) uA]>
                   (users w))
                (cloud w)).
Proof.
  intros HA HB HuA.
  assert (Hins : forall h : User -> User, alter h A (users w) = <[A := h uA]> (users w)).
  { intros h. apply map_eq. intros X. rewrite lookup_alter, lookup_insert.
    case_decide; [|done]. by rewrite HuA. }
  split; [|split].
  - unfold Directory.UserController.followUser. run.
    rewrite Directory_followUser_run, HA, HB. simpl.
    unfold on_following. by rewrite Hins.
  - unfold Directory.UserController.unfollowUser. run.
    rewrite Directory_unfollowUser_run, HA, HB. simpl.
    unfold on_following. by rewrite Hins.
  - unfold Directory.UserController.connectUsers. run.
    rewrite Directory_connectUsers_run, HA, HB. simpl.
    unfold on_connections. by rewrite Hins.
Qed.

Lemma Directory_relationships_half_done_witness :
  exists w1 u,
    Directory.UserController.followUser Sample.runtime Sample.alice_id "nobody"
      Sample.world = (Throw (CastError "nobody"), w1)
    /\ users w1 !! Sample.alice_id = Some u
    /\ following u = ["nobody"].
Proof.
  destruct (Directory_relationships_half_done Sample.runtime Sample.alice_id "nobody"
              Sample.world Sample.alice eq_refl eq_refl eq_refl) as (H & _).
  eexists _, _. split; [exact H|]. split; reflexivity.
Defined.

(** ** The guarded profile update, beyond the username rule *)

Lemma head_filter_none (q : User -> bool) w :
  (forall id u, users w !! id = Some u -> q u = false) ->
  head (filter (fun d => q (fields d) = true) (Model.find_all w)) = None.
Proof.
  intros Hnone.
  destruct (filter (fun d => q (fields d) = true) (Model.find_all w)) as [|d l] eqn:Hl;
    [done|].
  assert (Hd : d ∈ d :: l) by (apply elem_of_cons; by left).
  rewrite <- Hl in Hd. apply list_elem_of_filter in Hd as [Hq Hd].
  apply elem_of_find_all in Hd. rewrite (Hnone _ _ Hd) in Hq. discriminate.
Qed.



Lemma Core_uploadImage_cloud rt file folder w :
  exists calls,
    cloud (Core.CloudinaryService.uploadImage rt file folder w).2
    = (cloud w ++ calls)%list
    /\ Forall (fun c => is_upload c = true) calls.
Proof.
  unfold Core.CloudinaryService.uploadImage, Cloudinary.upload_stream,
    Cloudinary.upload. run.
  destruct (negb _); simpl; [exists []; by rewrite app_nil_r|].
  destruct (match size file with Some _ => _ | None => _ end); simpl;
    [exists []; by rewrite app_nil_r|].
  destruct (buffer file), (path file) as [p|]; simpl;
    try destruct (Js.truthy p); simpl;
    try destruct (uploader_upload_stream _ _ _ _) as [?|[u|]]; simpl;
    try destruct (uploader_upload _ _ _ _) as [?|[u|]]; simpl;
    try destruct (Js.truthy u); simpl;
    first [ by (exists []; rewrite app_nil_r)
          | by (eexists [_]; split; [reflexivity|repeat constructor]) ].
Qed.

Lemma handleImageUploads_cloud rt req d doc w :
  exists calls,
    cloud (Core.UserController.handleImageUploads rt req d doc w).2
    = (cloud w ++ calls)%list
    /\ Forall (fun c => is_upload c = true) calls.
Proof.
  unfold Core.UserController.handleImageUploads. run.
  destruct (Core.files_profile req) as [fp|]; simpl.
  - destruct (Core_uploadImage_cloud rt fp profiles w) as (c1 & H1 & F1).
    destruct (Core.CloudinaryService.uploadImage rt fp profiles w) as [[url|e] w1];
      simpl in *; [|eauto].
    destruct (Core.files_cover req) as [fc|]; simpl; [|eauto].
    destruct (Core_uploadImage_cloud rt fc covers w1) as (c2 & H2 & F2).
    exists (c1 ++ c2)%list. split; [|by apply Forall_app].
    destruct (Core.CloudinaryService.uploadImage rt fc covers w1) as [[url'|e] w2];
      simpl in *; by rewrite H2, H1, <- app_assoc.
  - destruct (Core.files_cover req) as [fc|]; simpl;
      [|exists []; by rewrite app_nil_r].
    destruct (Core_uploadImage_cloud rt fc covers w) as (c2 & H2 & F2).
    exists c2. split; [|done].
    by destruct (Core.CloudinaryService.uploadImage rt fc covers w) as [[url'|e] w2].
Qed.

Lemma Core_updateUserId_cloud rt req w :
  exists calls,
    cloud (Core.UserController.updateUserId rt req w).2 = (cloud w ++ calls)%list
    /\ Forall (fun c => is_upload c = true) calls.
Proof.
  assert (Hnil : exists calls, cloud w = (cloud w ++ calls)%list
                   /\ Forall (fun c => is_upload c = true) calls)
    by (exists []; by rewrite app_nil_r).
  unfold Core.UserController.updateUserId, Core.UserService.findUserById,
    Model.findById. run.
  destruct (Core.BaseController.validateAuthentication req) as [id|]; [|done].
  destruct (ObjectId_isValid rt id) eqn:Hid; simpl; [|done].
  destruct (users w !! id) as [u|] eqn:Hu; simpl; [|done].
  destruct (Core.body_username req) as [name|]; simpl; [|done].
  destruct (Js.truthy name); simpl; [|done].
  case_bool_decide; [destruct (head _); simpl|].
  all: set (data := Core.mkUpdateUserData _ _ _ _ None None).
  all: destruct (handleImageUploads_cloud rt req data (mkDocument id u) w)
         as (calls & Hc & Hf).
  all: destruct (Core.UserController.handleImageUploads rt req data
                   (mkDocument id u) w) as [[d'|e] w1]; simpl in *; [|eauto].
  all: unfold Core.UserService.updateUser, Model.findByIdAndUpdate,
         Model.findByIdAndModify; run; rewrite ?Hid; simpl.
  all: destruct (users w1 !! id); simpl; eauto.
Qed.

Lemma Core_updateUserId_users rt req w :
  users (Core.UserController.updateUserId rt req w).2 = users w
  \/ exists id u d,
       users w !! id = Some u
       /\ users (Core.UserController.updateUserId rt req w).2
          = <[id := Model.apply_update (Core.schema_update d) u]> (users w).
Proof.
  destruct (Core.BaseController.validateAuthentication req) as [id|] eqn:Hauth.
  2:{ left. unfold Core.UserController.updateUserId. run. by rewrite Hauth. }
  destruct (users w !! id) as [u|] eqn:Hu.
  - destruct (Core_updateUserId_store rt req w id u Hauth Hu) as (d & [H|H] & _);
      [by left|]. right. eauto.
  - left. unfold Core.UserController.updateUserId, Core.UserService.findUserById,
      Model.findById. run. rewrite Hauth.
    destruct (ObjectId_isValid rt id); simpl; [|done]. by rewrite Hu.
Qed.

(** X16.  The guarded profile update never stores an image and never
    removes one from the host: for every request, every stored user has
    the same [profile_image] and [cover_image] afterwards as before, and
    the calls made to the image host, if any, are uploads only.  (The
    uploaded URL is put under the keys [profile] and [cover], which are
    no paths of the schema, and the old image is looked up under the same
    two names.) *)
Theorem updateUserId_images_not_stored rt req w :
  let w' := (Core.UserController.updateUserId rt req w).2 in
  (forall id, profile_image <$> users w' !! id = profile_image <$> users w !! id)
  /\ (forall id, cover_image <$> users w' !! id = cover_image <$> users w !! id)
  /\ exists calls,
       cloud w' = (cloud w ++ calls)%list
       /\ Forall (fun c => is_upload c = true) calls.
Proof.
  simpl. split; [|split; [|apply Core_updateUserId_cloud]].
  - intros id'. destruct (Core_updateUserId_users rt req w)
      as [-> | (id & u & d & Hu & ->)]; [done|].
    rewrite lookup_insert. case_decide; [|done]. subst id'. by rewrite Hu.
  - intros id'. destruct (Core_updateUserId_users rt req w)
      as [-> | (id & u & d & Hu & ->)]; [done|].
    rewrite lookup_insert. case_decide; [|done]. subst id'. by rewrite Hu.
Qed.

(** An upload with the guarded update: the host is called, the stored
    image stays. *)
Example updateUserId_upload_lost :
  exists resp w',
    Core.UserController.updateUserId Sample.runtime
      (Core.mkRequest (Some Sample.alice_id) (Some "alice") None None None None "" ""
         (Some (mkFile (Some (Buffer_from_base64 "aGVsbG8=")) None "image/png" None))
         None)
      Sample.world = (Return resp, w')
    /\ statusCode resp = 200
    /\ length (cloud w') = 1
    /\ users w' !! Sample.alice_id = Some Sample.alice.
Proof. eexists _, _. split; [vm_compute; reflexivity|]. by vm_compute. Qed.

(** X17.  The guarded profile update with a free username: when the
    request of a stored user asks for a non-empty username that no
    stored user has and carries no image files, the answer is 200 with
    [success: true] and the updated user without the password; the stored
    user has the new username and the bio, location and full name the
    request names, everything else as before; no other user changes and
    the image host is not called. *)
Theorem updateUserId_free_username rt req w id u Y :
  Core.BaseController.validateAuthentication req = Some id ->
  ObjectId_isValid rt id = true ->
  users w !! id = Some u ->
  Core.body_username req = Some Y -> Js.truthy Y = true ->
  (forall id' u', users w !! id' = Some u' -> username u' ≠ Some Y) ->
  Core.files_profile req = None -> Core.files_cover req = None ->
  let u' :=
    mkUser (email u) (password u) (default (full_name u) (Core.body_full_name req))
           (Some Y) (default (bio u) (Core.body_bio req))
           (profile_image u) (cover_image u)
           (default (location u) (Core.body_location req))
           (followers u) (following u) (connections u) in
  Core.UserController.updateUserId rt req w
  = (Return (mkResponse 200
               (UserEnvelope true (without_password (toObject (mkDocument id u'))))),
     mkWorld (<[id := u']> (users w)) (cloud w)).
Proof.
  intros Hauth Hid Hu Hname HY Hfree Hfp Hfc. simpl.
  unfold Core.UserController.updateUserId. run. rewrite Hauth.
  rewrite findUserById_run by done. rewrite Hu. simpl. rewrite Hname. simpl.
  rewrite HY. simpl.
  rewrite bool_decide_true by (by apply (Hfree id u)).
  unfold Core.UserService.findUserByUsername, Model.findOne, Model.find. run.
  pose proof (head_filter_none (fun u => bool_decide (username u = Some Y)) w)
    as Hnone. simpl in Hnone. rewrite Hnone.
  2:{ intros id' u0 Hu0. apply bool_decide_eq_false. by apply (Hfree id' u0). }
  simpl. unfold Core.UserController.handleImageUploads. run.
  rewrite Hfp, Hfc. simpl.
  unfold Core.UserService.updateUser, Model.findByIdAndUpdate,
    Model.findByIdAndModify. run. rewrite Hid. simpl. rewrite Hu. simpl.
  reflexivity.
Qed.

Lemma updateUserId_free_username_witness :
  exists resp w',
    Core.UserController.updateUserId Sample.runtime
      (Core.mkRequest (Some Sample.alice_id) (Some "alice2") (Some "Reading") None None
         None "" "" None None)
      Sample.world = (Return resp, w')
    /\ statusCode resp = 200
    /\ (username <$> users w' !! Sample.alice_id) = Some (Some "alice2")
    /\ (bio <$> users w' !! Sample.alice_id) = Some "Reading"
    /\ users w' !! Sample.bob_id = Some Sample.bob.
Proof.
  eexists _, _. split.
  - apply (updateUserId_free_username Sample.runtime _ Sample.world Sample.alice_id
             Sample.alice "alice2"); try reflexivity.
    apply (two_users (fun _ u => username u ≠ Some "alice2")); discriminate.
  - by vm_compute.
Defined.

(** ** Uploading an image *)

(** X18.  [uploadImage] of the guarded controller's image service: it
    never touches the users; a URL it returns is non-empty and belongs
    to a file of an allowed type within the size limit, for which
    exactly one upload call was made; a file of another type or over the
    limit is refused before the host is called; and whatever goes wrong
    is thrown as an [Error] whose message starts with
    'Cloudinary upload failed: '. *)
Theorem Core_uploadImage_outcomes rt file folder w :
  let r := Core.CloudinaryService.uploadImage rt file folder w in
  users r.2 = users w
  /\ match r.1 with
     | Return url =>
         Js.truthy url = true
         /\ mimetype file ∈ Cloudinary.allowedTypes
         /\ (forall n, size file = Some n -> (n <= env_MAX_FILE_SIZE rt)%N)
         /\ exists c, cloud r.2 = (cloud w ++ [c])%list /\ is_upload c = true
     | Throw e => exists m, e = ErrorObj ("Cloudinary upload failed: " ++ m)
     end
  /\ ((mimetype file ∉ Cloudinary.allowedTypes)
      \/ (exists n, size file = Some n /\ (env_MAX_FILE_SIZE rt < n)%N) ->
      cloud r.2 = cloud w /\ exists e, r.1 = Throw e).
Proof.
  simpl. split; [apply Core_uploadImage_users|].
  unfold Core.CloudinaryService.uploadImage, Cloudinary.upload_stream,
    Cloudinary.upload.
  destruct (Js.includes (mimetype file) Cloudinary.allowedTypes) eqn:Htype; run.
  2:{ split; [by eexists | intros _; split; [done | by eexists]]. }
  apply includes_true in Htype.
  assert (Hsize : forall b, match size file with
                            | Some n => N.ltb (env_MAX_FILE_SIZE rt) n
                            | None => false
                            end = b ->
                  if b then exists n, size file = Some n /\ (env_MAX_FILE_SIZE rt < n)%N
                  else forall n, size file = Some n -> (n <= env_MAX_FILE_SIZE rt)%N).
  { intros b <-. destruct (size file) as [n|]; [|done].
    destruct (N.ltb_spec (env_MAX_FILE_SIZE rt) n); [eauto|].
    by intros ? [= <-]. }
  destruct (match size file with Some _ => _ | None => _ end) eqn:Hlimit; simpl.
  { split; [by eexists | intros _; split; [done | by eexists]]. }
  specialize (Hsize false eq_refl). simpl in Hsize.
  assert (Hno : (mimetype file ∉ Cloudinary.allowedTypes)
                \/ (exists n, size file = Some n /\ (env_MAX_FILE_SIZE rt < n)%N) ->
                False).
  { intros [H|(n & Hn & Hlt)]; [done|]. specialize (Hsize n Hn). lia. }
  destruct (buffer file), (path file) as [p|]; simpl;
    try destruct (Js.truthy p); simpl;
    try destruct (uploader_upload_stream _ _ _ _) as [?|[u|]]; simpl;
    try destruct (uploader_upload _ _ _ _) as [?|[u|]]; simpl;
    try destruct (Js.truthy u) eqn:Hurl; simpl;
    (split; [|by intros ?%Hno]); eauto 8.
Qed.

(** X19.  A file the upload filter accepted reaches the host: for a
    file held in memory that [fileFilter] let through and that is within
    the size limit, the guarded controller's [uploadImage] makes exactly
    one call, the upload of that file, and its result is the host's: the
    URL when the host gives a non-empty one, else an [Error] that names
    the failure. *)
Theorem filtered_file_reaches_host path_extname originalname file b rt folder w :
  Multer.fileFilter path_extname originalname file = true ->
  buffer file = Some b ->
  (forall n, size file = Some n -> (n <= env_MAX_FILE_SIZE rt)%N) ->
  Core.CloudinaryService.uploadImage rt file folder w
  = (match uploader_upload_stream rt (cloud w) folder file with
     | UploadDone (Some url) =>
         if Js.truthy url then Return url
         else Throw (ErrorObj
                "Cloudinary upload failed: Upload successful but no URL returned")
     | UploadDone None =>
         Throw (ErrorObj
                  "Cloudinary upload failed: Upload successful but no URL returned")
     | UploadError m =>
         Throw (ErrorObj ("Cloudinary upload failed: Upload failed: " ++ m))
     end,
     mkWorld (users w) (cloud w ++ [UploadStream folder file])).
Proof.
  intros Hfilter Hbuf Hsize. unfold Multer.fileFilter in Hfilter.
  apply andb_prop in Hfilter as [Hmime _].
  assert (Htype : Js.includes (mimetype file) Cloudinary.allowedTypes = true).
  { unfold Js.includes, Multer.allowedMimeTypes, Cloudinary.allowedTypes in *.
    simpl in *. apply orb_prop in Hmime as [-> | ->]; [done|].
    by rewrite !orb_true_r. }
  unfold Core.CloudinaryService.uploadImage, Cloudinary.upload_stream.
  rewrite Htype. run.
  assert (match size file with
          | Some n => N.ltb (env_MAX_FILE_SIZE rt) n
          | None => false
          end = false) as ->.
  { destruct (size file) as [n|]; [|done]. apply N.ltb_ge. by apply Hsize. }
  simpl. rewrite Hbuf. simpl.
  destruct (uploader_upload_stream rt (cloud w) folder file) as [m|[url|]]; simpl;
    try done.
  by destruct (Js.truthy url).
Qed.

Lemma filtered_file_reaches_host_witness :
  let file := mkFile (Some (Buffer_from_base64 "aGVsbG8=")) None "image/png"
                     (Some 5%N) in
  Core.CloudinaryService.uploadImage Sample.runtime file profiles Sample.world
  = (Return "https://res.cloudinary.com/demo/image/upload/v1/new0",
     mkWorld (users Sample.world) [UploadStream profiles file]).
Proof.
  simpl.
  apply (filtered_file_reaches_host (fun _ => ".PNG") "me.PNG" _
           (Buffer_from_base64 "aGVsbG8=") Sample.runtime profiles Sample.world).
  - reflexivity.
  - reflexivity.
  - intros n [= <-]. vm_compute. discriminate.
Defined.

(** X20.  [uploadImage] of [core/services/cloudinary.service.ts], the
    one the directory controller calls: a file of a type outside the
    allowed four is refused with 'Invalid file type...', one larger than
    10 MB with 'File too large...', both before the host is called and
    with the world unchanged; every other file is sent to the host once,
    and a URL is returned only when the host gave a non-empty one. *)
Theorem CloudinaryService_uploadImage_outcomes rt file folder w :
  let r := CloudinaryService.uploadImage rt file folder w in
  (mimetype file ∉ Cloudinary.allowedTypes ->
   r = (Throw (ErrorObj
          "Invalid file type. Allowed: image/jpeg, image/jpg, image/png, image/webp"),
        w))
  /\ (mimetype file ∈ Cloudinary.allowedTypes ->
      forall n, size file = Some n -> (10485760 < n)%N ->
      r = (Throw (ErrorObj "File too large. Max allowed size is 10 MB"), w))
  /\ (mimetype file ∈ Cloudinary.allowedTypes ->
      (forall n, size file = Some n -> (n <= 10485760)%N) ->
      r.2 = mkWorld (users w) (cloud w ++ [UploadStream folder file])
      /\ match r.1 with
         | Return url =>
             Js.truthy url = true
             /\ uploader_upload_stream rt (cloud w) folder file = UploadDone (Some url)
         | Throw e =>
             match uploader_upload_stream rt (cloud w) folder file with
             | UploadError m => e = ErrorObj m
             | UploadDone (Some url) => Js.truthy url = false
             | UploadDone None => True
             end
         end).
Proof.
  simpl. unfold CloudinaryService.uploadImage, CloudinaryService.validateFile,
    Cloudinary.upload_stream.
  split; [|split].
  - intros Htype. apply includes_false in Htype. by rewrite Htype.
  - intros Htype n Hn Hlt. apply includes_true in Htype. rewrite Htype, Hn. run.
    assert (N.ltb CloudinaryService.maxSize n = true) as ->; [|done].
    apply N.ltb_lt. unfold CloudinaryService.maxSize. lia.
  - intros Htype Hsize. apply includes_true in Htype. rewrite Htype. run.
    assert (match size file with
            | Some n => N.ltb CloudinaryService.maxSize n
            | None => false
            end = false) as ->.
    { destruct (size file) as [n|]; [|done]. apply N.ltb_ge.
      unfold CloudinaryService.maxSize. specialize (Hsize n eq_refl). lia. }
    simpl.
    destruct (uploader_upload_stream rt (cloud w) folder file) as [m|[url|]]; simpl;
      try done.
    by destruct (Js.truthy url) eqn:Hurl.
Qed.

Lemma Core_uploadImage_outcomes_witness :
  let file := mkFile (Some (Buffer_from_base64 "aGVsbG8=")) None "text/plain" None in
  let r := Core.CloudinaryService.uploadImage Sample.runtime file profiles
             Sample.world in
  cloud r.2 = cloud Sample.world /\ exists e, r.1 = Throw e.
Proof.
  intros file r.
  destruct (Core_uploadImage_outcomes Sample.runtime file profiles Sample.world)
    as (_ & _ & H).
  apply H. left. apply includes_false. reflexivity.
Defined.

Lemma CloudinaryService_uploadImage_outcomes_witness :
  let file := mkFile (Some (Buffer_from_base64 "aGVsbG8=")) None "image/gif" None in
  CloudinaryService.uploadImage Sample.runtime file covers Sample.world
  = (Throw (ErrorObj
       "Invalid file type. Allowed: image/jpeg, image/jpg, image/png, image/webp"),
     Sample.world).
Proof.
  intros file.
  destruct (CloudinaryService_uploadImage_outcomes Sample.runtime file covers
              Sample.world) as (H & _).
  apply H. apply includes_false. reflexivity.
Defined.

(** ** Logging in and signing up *)

(** X21.  [login] answers with a token only for a stored user whose
    email is the one given and whose stored hash [bcrypt.compare]
    accepts for the password given; the token is the one signed for that
    user's identifier and email, and the user returned is the stored
    document.  When no stored user has the email it throws 'User not
    found', and when the first stored user with that email has another
    password it throws 'Invalid Credentials'.  The world is never
    changed. *)
Theorem login_outcomes rt email_ password_ w :
  let r := AuthController.login rt email_ password_ w in
  r.2 = w
  /\ match r.1 with
     | Return (token, user) =>
         users w !! _id user = Some (fields user)
         /\ email (fields user) = email_
         /\ bcrypt_compare rt password_ (password (fields user)) = true
         /\ token = jwt_sign rt (_id user) email_
     | Throw e =>
         (e = ThrownString "User not found"
          /\ forall id u, users w !! id = Some u -> email u ≠ email_)
         \/ (e = ThrownString "Invalid Credentials"
             /\ exists id u, users w !! id = Some u /\ email u = email_
                             /\ bcrypt_compare rt password_ (password u) = false)
     end.
Proof.
  simpl. unfold AuthController.login, Model.findOne, Model.find. run.
  destruct (head (filter (fun d => String.eqb (email (fields d)) email_ = true)
                    (Model.find_all w))) as [d|] eqn:Hhead; simpl.
  - assert (Hd : d ∈ filter (fun d => String.eqb (email (fields d)) email_ = true)
                      (Model.find_all w)).
    { destruct (filter _ _) as [|d' l]; [done|]. injection Hhead as ->.
      apply elem_of_cons. by left. }
    apply list_elem_of_filter in Hd as [Hmail Hd].
    apply String.eqb_eq in Hmail. apply elem_of_find_all in Hd.
    destruct (bcrypt_compare rt password_ (password (fields d))) eqn:Hpw; simpl.
    + split; [done|]. repeat split; try done. by rewrite Hmail.
    + split; [done|]. right. split; [done|]. eauto.
  - split; [done|]. left. split; [done|]. intros id u Hu Hmail.
    destruct (head_filter_found (fun u => String.eqb (email u) email_) w id u Hu)
      as (d & Hd & _); [by apply String.eqb_eq|].
    simpl in Hd. rewrite Hd in Hhead. discriminate.
Qed.

(** X22.  [signup] refuses an email that is already stored: it throws
    'User already exists with this email' and leaves the world as it is;
    the password is not hashed into any stored field and no user is
    created, whatever [User.create] would do. *)
Theorem signup_existing_email rt bcrypt_hash create body w id u :
  users w !! id = Some u -> email u = AuthController.signup_email body ->
  AuthController.signup rt bcrypt_hash create body w
  = (Throw (ThrownString "User already exists with this email"), w).
Proof.
  intros Hu Hmail. unfold AuthController.signup, Model.findOne, Model.find. run.
  destruct (head_filter_found (fun u => String.eqb (email u) (AuthController.signup_email body))
              w id u Hu) as (d & Hd & _); [by apply String.eqb_eq|].
  simpl in Hd. by rewrite Hd.
Qed.

Lemma signup_existing_email_witness :
  AuthController.signup Sample.runtime (fun p => "hash-of-" ++ p)
    (fun b => mret (mkDocument Scene.carol_id Sample.bob))
    (AuthController.mkSignupBody "alice@uni.example" "secret" (Some "Alice Again") None)
    Sample.world
  = (Throw (ThrownString "User already exists with this email"), Sample.world).
Proof.
  apply (signup_existing_email Sample.runtime _ _ _ Sample.world Sample.alice_id
           Sample.alice); reflexivity.
Defined.

(** ** The authentication gate and the header helper *)

(** X23.  The gate and the helper read a request alike.  When the gate
    lets a request pass, the header holds a token [getTokenFromHeader]
    finds, the token verifies, the request handed on differs only in
    [userId], and that [userId] is what [getUserIdFromHeader] computes
    from the same request.  When the gate answers itself, it is 401
    'Unauthorized' exactly when [getTokenFromHeader] finds no token and
    403 'Invalid token' when the token does not verify, and the helper
    gives [undefined] in both cases. *)
Theorem gate_agrees_with_helper jwt_verify req :
  match Gate.authenticateToken jwt_verify req with
  | Gate.Next r =>
      exists t decoded,
        Gate.getTokenFromHeader req = Some t
        /\ jwt_verify t = Some decoded
        /\ Gate.authorization r = Gate.authorization req
        /\ Gate.userId r = decoded !! "userId"
        /\ Gate.getUserIdFromHeader jwt_verify req = Gate.userId r
  | Gate.Sent code text =>
      Gate.getUserIdFromHeader jwt_verify req = None
      /\ ((code = 401 /\ text = "Unauthorized" /\ Gate.getTokenFromHeader req = None)
          \/ (code = 403 /\ text = "Invalid token"
              /\ exists t, Gate.getTokenFromHeader req = Some t
                           /\ jwt_verify t = None))
  end.
Proof.
  unfold Gate.authenticateToken, Gate.getTokenFromHeader, Gate.getUserIdFromHeader,
    Gate.verify.
  destruct (Gate.authorization req) as [header|]; simpl; [|auto].
  destruct (Js.truthy header) eqn:Hheader.
  2:{ destruct header; [|done]. simpl. auto. }
  destruct (Gate.second_word header) as [t|]; simpl; [|auto].
  destruct (Js.truthy t) eqn:Ht; simpl; [|auto].
  destruct (jwt_verify t) as [decoded|] eqn:Hverify; simpl.
  - exists t, decoded. auto.
  - split; [done|]. right. eauto.
Qed.

Lemma second_word_pair scheme token :
  no_char " " scheme = true -> no_char " " token = true ->
  Gate.second_word (scheme ++ " " ++ token) = Some token.
Proof.
  intros Hs Ht. unfold Gate.second_word.
  change (scheme ++ " " ++ token) with (scheme ++ String " " token).
  by rewrite split_app, !split_no_char.
Qed.

(** X24.  A token signed as [login] and [signup] sign it carries
    [id] and [email] but no [userId], the claim the gate and the helper
    read.  So when the library gives back the claims that were signed,
    such a token, sent as the second word of the header, passes the gate
    and the request goes on with [userId] undefined; the helper gives
    [undefined] as well. *)
Theorem signed_token_at_gate rt jwt_verify id email_ scheme :
  let token := jwt_sign rt id email_ in
  jwt_verify token = Some (Gate.signed_claims id email_) ->
  no_char " " scheme = true -> no_char " " token = true -> Js.truthy token = true ->
  let req := Gate.mkRequest (Some (scheme ++ " " ++ token)) None in
  Gate.authenticateToken jwt_verify req = Gate.Next req
  /\ Gate.getUserIdFromHeader jwt_verify req = None.
Proof.
  intros token Hverify Hs Ht Htoken req.
  assert (Hclaims : Gate.signed_claims id email_ !! "userId" = None).
  { unfold Gate.signed_claims. by rewrite !lookup_insert_ne. }
  unfold Gate.authenticateToken, Gate.getUserIdFromHeader, Gate.verify. simpl.
  rewrite second_word_pair by done. simpl. fold token. rewrite Htoken. simpl.
  rewrite Hverify, Hclaims. split; [done|].
  by destruct scheme.
Qed.

Lemma signed_token_at_gate_witness :
  let verify t :=
    if String.eqb t ("token-" ++ Sample.alice_id)
    then Some (Gate.signed_claims Sample.alice_id "alice@uni.example") else None in
  let req := Gate.mkRequest (Some ("Bearer token-" ++ Sample.alice_id)) None in
  Gate.authenticateToken verify req = Gate.Next req
  /\ Gate.getUserIdFromHeader verify req = None.
Proof.
  intros verify req.
  apply (signed_token_at_gate Sample.runtime verify Sample.alice_id
           "alice@uni.example" "Bearer"); reflexivity.
Defined.

(** ** Deleting a user *)

Lemma Directory_deleteUser_run rt B w uB :
  ObjectId_isValid rt B = true -> users w !! B = Some uB ->
  Directory.UserController.deleteUser rt B w
  = (Return (mkDocument B uB), mkWorld (delete B (users w)) (cloud w)).
Proof.
  intros HB HuB. unfold Directory.UserController.deleteUser,
    Directory.UserService.deleteUser, Model.findByIdAndDelete. run.
  by rewrite HB, HuB.
Qed.

(** X25.  [deleteUser] removes the one document and nothing else: the
    deleted user's images stay on the host, and every other user is as
    before, so a user who followed the deleted one still lists its
    identifier.  In the world after the deletion the guarded controller
    treats that identifier as follows: following it is answered 400
    'User to follow not found' with nothing changed, and a user who
    still lists it can unfollow it, which is answered 200 and removes the
    identifier from that user's following. *)
Theorem deleteUser_leaves_references rt B w uB :
  ObjectId_isValid rt B = true -> users w !! B = Some uB ->
  exists w1,
    Directory.UserController.deleteUser rt B w = (Return (mkDocument B uB), w1)
    /\ users w1 !! B = None
    /\ cloud w1 = cloud w
    /\ (forall id, id ≠ B -> users w1 !! id = users w !! id)
    /\ (forall req A uA,
          Core.BaseController.validateAuthentication req = Some A ->
          ObjectId_isValid rt A = true -> users w !! A = Some uA -> A ≠ B ->
          (Core.body_followId req = B ->
           Core.UserController.followUser rt req w1
           = (Return (mkResponse 400 (Message "User to follow not found")), w1))
          /\ (Core.body_unfollowId req = B -> B ∈ following uA ->
              Core.UserController.unfollowUser rt req w1
              = (Return (mkResponse 200 (Message "You have unfollowed this user")),
                 mkWorld (<[A := set_following (Model.pull B (following uA)) uA]>
                            (users w1))
                         (cloud w1)))).
Proof.
  intros HB HuB. eexists. split; [by apply Directory_deleteUser_run|]. simpl.
  split; [apply lookup_delete_eq|]. split; [done|].
  split; [intros id Hne; by apply lookup_delete_ne|].
  intros req A uA Hauth HA HuA Hne.
  assert (HuA1 : delete B (users w) !! A = Some uA) by (by rewrite lookup_delete_ne).
  split.
  - intros Hfollow. unfold Core.UserController.followUser. run.
    rewrite Hauth, Hfollow.
    assert (String.eqb A B = false) as -> by (by apply String.eqb_neq).
    unfold Core.UserService.addFollowing. run.
    rewrite findUserById_run by done. simpl. rewrite HuA1. simpl.
    rewrite findUserById_run by done. simpl. by rewrite lookup_delete_eq.
  - intros Hunfollow Hin. unfold Core.UserController.unfollowUser. run.
    rewrite Hauth, Hunfollow.
    assert (String.eqb A B = false) as -> by (by apply String.eqb_neq).
    rewrite (removeFollowing_store rt A B _ uA) by done. rewrite HB. simpl.
    unfold unfollow_store, on_followers, on_following.
    rewrite <- (insert_alter _ A uA) by done.
    rewrite alter_missing; [done|].
    rewrite lookup_insert_ne by done. apply lookup_delete_eq.
Qed.

Lemma deleteUser_leaves_references_witness :
  exists w1 uA,
    Directory.UserController.deleteUser Sample.runtime Sample.bob_id Scene.world
    = (Return (mkDocument Sample.bob_id Scene.bob), w1)
    /\ users w1 !! Sample.alice_id = Some uA
    /\ Sample.bob_id ∈ following uA
    /\ users w1 !! Sample.bob_id = None.
Proof.
  destruct (deleteUser_leaves_references Sample.runtime Sample.bob_id Scene.world
              Scene.bob eq_refl eq_refl) as (w1 & Hrun & Hgone & _ & Hrest & _).
  exists w1, Scene.alice. split; [exact Hrun|]. split.
  - rewrite Hrest by discriminate. reflexivity.
  - split; [|exact Hgone]. apply includes_true. reflexivity.
Defined.

(** ** The directory update and read handlers *)

Lemma upload_outcome_Return rt h folder file url :
  upload_outcome rt h folder file = Return url ->
  Js.truthy url = true
  /\ uploader_upload_stream rt h folder file = UploadDone (Some url).
Proof.
  unfold upload_outcome.
  destruct (uploader_upload_stream rt h folder file) as [m|[url'|]]; try done.
  destruct (Js.truthy url') eqn:Hurl; [|done]. by intros [= <-].
Qed.

(** X26.  A directory update that succeeds stores what it returns, and
    the images it stores are the ones just uploaded: the returned
    document is the one now stored under the identifier, and for each
    slot the body carries a usable image for, the stored URL is non-empty
    and is the URL the host answered the upload of that image with. *)
Theorem Directory_updateUser_success rt id body w u d w' :
  ObjectId_isValid rt id = true -> users w !! id = Some u ->
  Directory.UserController.updateUser rt id body w = (Return d, w') ->
  _id d = id
  /\ users w' !! id = Some (fields d)
  /\ (forall folder data, incoming_image folder body = Some data ->
        Js.truthy (old_image folder (fields d)) = true
        /\ exists h,
             uploader_upload_stream rt h folder (jpeg_file data)
             = UploadDone (Some (old_image folder (fields d)))).
Proof.
  intros Hid Hu. rewrite (updateUser_run rt id body w u Hid Hu).
  unfold updateUser_result, replace_image.
  destruct (incoming_image profiles body) as [dataP|] eqn:HP;
    [destruct (upload_outcome rt _ profiles _) as [urlP|e] eqn:HupP; [|done];
     apply upload_outcome_Return in HupP as [HtP HhP]|];
    (destruct (incoming_image covers body) as [dataC|] eqn:HC;
     [destruct (upload_outcome rt _ covers _) as [urlC|e'] eqn:HupC; [|done];
      apply upload_outcome_Return in HupC as [HtC HhC]|]);
    simpl; intros [= <- <-]; simpl;
    (split; [done|]); (split; [apply lookup_insert_eq|]);
    intros folder data Hin; destruct folder; simpl;
    rewrite ?HP, ?HC in Hin; try discriminate; injection Hin as <-; eauto.
Qed.

Lemma Directory_updateUser_success_witness :
  exists d w',
    Directory.UserController.updateUser Sample.runtime Sample.alice_id
      Sample.new_profile Sample.world = (Return d, w')
    /\ users w' !! Sample.alice_id = Some (fields d)
    /\ Js.truthy (profile_image (fields d)) = true
    /\ profile_image (fields d) ≠ profile_image Sample.alice.
Proof.
  eexists _, _. split; [vm_compute; reflexivity|].
  match goal with
  | |- users ?w' !! _ = Some (fields ?d) /\ _ =>
      destruct (Directory_updateUser_success Sample.runtime Sample.alice_id
                  Sample.new_profile Sample.world Sample.alice d w' eq_refl eq_refl)
        as (_ & Hstored & Himg); [vm_compute; reflexivity|]
  end.
  split; [exact Hstored|].
  split; [exact (proj1 (Himg profiles "aGVsbG8=" eq_refl))|].
  intros H. vm_compute in H. discriminate H.
Defined.


